(** * plugin.bato: the Rulia plugin for mto.to

    A shallow embedding of [src/index.ts], in its two variants (the browser one
    built on jQuery and the one built on cheerio), and the properties of its
    four operations: manga list, search, manga data and chapter image list.

    The plugin is glue between four collaborators that are not part of the
    repository: the ECMAScript engine ([parseInt], [JSON.parse],
    [encodeURIComponent], [new Function]), the DOM query library (jQuery or
    cheerio), the network ([window.Rulia.httpRequest]) and the host's two
    result channels.  The engine primitives the plugin's control flow depends
    on ([parseInt], property access, truthiness) and the query API are
    modelled here; the collaborators whose answers are data (the network, the
    HTML and JSON parsers, URI encoding, script evaluation) are fields of a
    [Host] record, and the calls to them are logged (URI encoding apart, which
    only shows in the url of the request). *)

From Stdlib Require Import String Ascii List ZArith NArith Bool Lia.
From Stdlib Require Import DecimalString DecimalPos.
Import ListNotations.
Set Warnings "-register-all".
Open Scope string_scope.
Open Scope list_scope.

(** ** ECMAScript values

    A string is the sequence of its code units, and [String.length] is the
    [length] of the plugin's comparisons; the model has the code units below
    256. *)

Module JS.

(** A number.  The plugin only builds numbers with [parseInt] and the literal
    [1], so a number is [NaN] or an integer.  The mathematical integer is
    kept: the engine's double is that integer up to 2^53, which is where the
    model stops being exact (past it the engine rounds, and from 10^21 on it
    prints in exponent notation); no listing has such a page. *)
Inductive Number :=
| NaN
| Int (z : Z).

Definition isNaN (n : Number) : bool :=
  match n with NaN => true | Int _ => false end.

(** [a > b] and [a <= b]: both are false as soon as one side is [NaN]. *)
Definition gt (a b : Number) : bool :=
  match a, b with Int x, Int y => (y <? x)%Z | _, _ => false end.

Definition le (a b : Number) : bool :=
  match a, b with Int x, Int y => (x <=? y)%Z | _, _ => false end.

(** Number to string, as in [url + '?page=' + page] and in a template. *)
Definition toString (n : Number) : string :=
  match n with
  | NaN => "NaN"
  | Int z => NilZero.string_of_int (Z.to_int z)
  end.

(** White space and line terminators that [parseInt] skips (the ones a code
    unit below 256 can be): TAB, LF, VT, FF, CR, SP, NBSP. *)
Definition isWhiteSpace (c : ascii) : bool :=
  let n := N_of_ascii c in
  ((9 <=? n) && (n <=? 13) || (n =? 32) || (n =? 160))%N.

Fixpoint trimStart (s : string) : string :=
  match s with
  | String c r => if isWhiteSpace c then trimStart r else s
  | EmptyString => s
  end.

(** The value of a digit in radixes up to 36. *)
Definition digitValue (c : ascii) : option Z :=
  let n := Z.of_N (N_of_ascii c) in
  if ((48 <=? n) && (n <=? 57))%Z then Some (n - 48)%Z
  else if ((97 <=? n) && (n <=? 122))%Z then Some (n - 87)%Z
  else if ((65 <=? n) && (n <=? 90))%Z then Some (n - 55)%Z
  else None.

(** The longest prefix of [s] made of digits of the radix, as a number;
    [acc] is [None] until a digit has been read. *)
Fixpoint readDigits (radix : Z) (s : string) (acc : option Z) : option Z :=
  match s with
  | EmptyString => acc
  | String c r =>
      match digitValue c with
      | Some d =>
          if (d <? radix)%Z
          then readDigits radix r
                 (Some (match acc with Some a => a * radix + d | None => d end)%Z)
          else acc
      | None => acc
      end
  end.

(** [parseInt(string)] with no radix argument: leading white space, a sign,
    a [0x]/[0X] prefix that switches to radix 16, then the longest run of
    digits; [NaN] when that run is empty. *)
Definition parseInt (value : string) : Number :=
  let s := trimStart value in
  let '(sign, s) :=
    match s with
    | String "-" r => ((-1)%Z, r)
    | String "+" r => (1%Z, r)
    | _ => (1%Z, s)
    end in
  let '(radix, s) :=
    match s with
    | String "0" (String "x" r) => (16%Z, r)
    | String "0" (String "X" r) => (16%Z, r)
    | _ => (10%Z, s)
    end in
  match readDigits radix s None with
  | Some n => Int (sign * n)
  | None => NaN
  end.

(** A value: the data a JSON text or a script can denote, and error objects.
    Only own data properties are modelled (the plugin reads [res], [html] and
    [message]). *)
Inductive Value :=
| Undefined
| Null
| Boolean (b : bool)
| Num (n : Number)
| Str (s : string)
| Arr (items : list Value)
| Obj (fields : list (string * Value))
| ErrorObject (name message : string).

(** What a call returns: a value, or a thrown value (any value can be
    thrown; an async call that rejects throws at its [await]). *)
Inductive Completion (A : Type) :=
| Normal (a : A)
| Throw (e : Value).
Arguments Normal {A} a.
Arguments Throw {A} e.

Fixpoint lookup {A : Type} (key : string) (fields : list (string * A)) : option A :=
  match fields with
  | [] => None
  | (k, v) :: rest => if String.eqb k key then Some v else lookup key rest
  end.

Definition TypeError (message : string) : Value := ErrorObject "TypeError" message.

(** Property read [v.key]: a [TypeError] on [undefined] and [null], the field
    of an object, [undefined] where there is no such property. *)
Definition get (v : Value) (key : string) : Completion Value :=
  match v with
  | Undefined =>
      Throw (TypeError ("Cannot read properties of undefined (reading '" ++ key ++ "')"))
  | Null =>
      Throw (TypeError ("Cannot read properties of null (reading '" ++ key ++ "')"))
  | Obj fields =>
      match lookup key fields with Some x => Normal x | None => Normal Undefined end
  | ErrorObject name message =>
      if String.eqb key "message" then Normal (Str message)
      else if String.eqb key "name" then Normal (Str name)
      else Normal Undefined
  | _ => Normal Undefined
  end.

(** A string or [undefined] in a condition or on the left of [||]: the
    string when it is truthy (defined and not empty). *)
Definition truthy (v : option string) : option string :=
  match v with
  | Some s => if String.eqb s "" then None else Some s
  | None => None
  end.

(** [v || fallback]. *)
Definition orElse (v : option string) (fallback : string) : string :=
  match truthy v with
  | Some s => s
  | None => fallback
  end.

(** [v] inside a template literal. *)
Definition template (v : option string) : string :=
  match v with
  | Some s => s
  | None => "undefined"
  end.

(** [array.map(f)] on a value that is used as an array without a check.
    Of the values of [Value] only an array has a [map] to call; an object
    that carries a callable [map] of its own (a typed array, say) is not a
    value of the model. *)
Definition arrayMap {A : Type} (v : Value) (name : string) (f : Value -> A)
    : Completion (list A) :=
  match v with
  | Arr items => Normal (map f items)
  | Undefined =>
      Throw (TypeError "Cannot read properties of undefined (reading 'map')")
  | Null =>
      Throw (TypeError "Cannot read properties of null (reading 'map')")
  | _ => Throw (TypeError (name ++ ".map is not a function"))
  end.

End JS.

(** ** The document tree and the query API

    The part of jQuery's and cheerio's API that the plugin calls, over a
    document tree.  A matched set (a jQuery or cheerio object) is the list of
    its nodes in the order the library enumerates them.  Comment nodes, which
    no query of the plugin observes, are left out. *)

Module Dom.

Inductive Node :=
| Element (tagName : string) (attributes : list (string * string)) (childNodes : list Node)
| Text (data : string).

Definition MatchedSet := list Node.

(** The selectors of the plugin are chains of simple selectors ([#id],
    [.class], [tag]) joined by the descendant combinator (a space). *)
Inductive Simple :=
| ById (id : string)
| ByClass (name : string)
| ByTag (name : string).

(** [s] cut at the characters [sep] holds for; [cur] is the piece being read.
    Empty pieces are dropped. *)
Fixpoint splitOn (sep : ascii -> bool) (s : string) (cur : string) : list string :=
  match s with
  | EmptyString => if String.eqb cur "" then [] else [cur]
  | String c r =>
      if sep c
      then (if String.eqb cur "" then [] else [cur]) ++ splitOn sep r ""
      else splitOn sep r (cur ++ String c "")
  end.

(** The white space that separates selectors and class names: space, tab,
    line feed, form feed and carriage return, as in jQuery.  cheerio cuts a
    [class] attribute at every character of the regular expression [\s],
    which has the vertical tab and the no-break space as well; a class
    attribute with one of these is outside the model for that variant. *)
Definition isSpace (c : ascii) : bool :=
  let n := N_of_ascii c in
  ((n =? 32) || (n =? 9) || (n =? 10) || (n =? 12) || (n =? 13))%N.

Definition parseSimple (token : string) : Simple :=
  match token with
  | String "#" r => ById r
  | String "." r => ByClass r
  | _ => ByTag token
  end.

Definition parseSelector (selector : string) : list Simple :=
  map parseSimple (splitOn isSpace selector "").

Definition matches (s : Simple) (n : Node) : bool :=
  match n with
  | Text _ => false
  | Element tag attrs _ =>
      match s with
      | ById id =>
          match JS.lookup "id" attrs with
          | Some v => String.eqb v id
          | None => false
          end
      | ByClass name =>
          match JS.lookup "class" attrs with
          | Some v => existsb (String.eqb name) (splitOn isSpace v "")
          | None => false
          end
      | ByTag name => String.eqb tag name
      end
  end.

(** The elements of the subtree [n], in document order, that the chain
    selects; [pending] is what is left of the chain once the ancestors of [n]
    (inside the context) have matched as much of it as they can. *)
Fixpoint select (pending : list Simple) (n : Node) : list Node :=
  match n with
  | Text _ => []
  | Element _ _ kids =>
      match pending with
      | [] => []
      | [s] => (if matches s n then [n] else []) ++ flat_map (select [s]) kids
      | s :: rest =>
          flat_map (select (if matches s n then rest else pending)) kids
      end
  end.

(** [$(selector)] of cheerio over a loaded document, given by its top-level
    nodes: every element of the document the selector matches. *)
Definition selectAll (selector : string) (document : list Node) : MatchedSet :=
  flat_map (select (parseSelector selector)) document.

Definition childNodesOf (n : Node) : list Node :=
  match n with
  | Element _ _ kids => kids
  | Text _ => []
  end.

(** [set.find(selector)]: the descendants of the nodes of [set] that the
    selector matches.  The plugin calls it on one element or on the top-level
    nodes of a parsed fragment, never on nodes nested in one another.  Every
    simple selector of the chain is matched below the node, as jQuery does;
    cheerio also lets the node itself stand for an ancestor of the chain (an
    item that itself has the class [item-cover], for [.item-cover img]), a
    case the model leaves out. *)
Definition find (selector : string) (set : MatchedSet) : MatchedSet :=
  flat_map (fun n => selectAll selector (childNodesOf n)) set.

(** [set.children(selector)]: the child elements of each node of [set] that
    the (simple) selector matches, node after node. *)
Definition children (selector : string) (set : MatchedSet) : MatchedSet :=
  flat_map
    (fun n =>
       filter
         (fun k =>
            match parseSelector selector with
            | [s] => matches s k
            | _ => false
            end)
         (childNodesOf n))
    set.

Fixpoint textContent (n : Node) : string :=
  match n with
  | Text data => data
  | Element _ _ kids => String.concat "" (map textContent kids)
  end.

(** [set.text()]: the text of every node of the set, descendants included. *)
Definition text (set : MatchedSet) : string :=
  String.concat "" (map textContent set).

(** [set.attr(name)]: the attribute of the first node of the set;
    [None] is [undefined]. *)
Definition attr (name : string) (set : MatchedSet) : option string :=
  match set with
  | Element _ attrs _ :: _ => JS.lookup name attrs
  | _ => None
  end.

Fixpoint eachFrom {S : Type} (index : nat) (set : MatchedSet)
    (callback : nat -> Node -> S -> S) (state : S) : S :=
  match set with
  | [] => state
  | el :: rest => eachFrom (Datatypes.S index) rest callback (callback index el state)
  end.

(** [set.each(callback)]: the callback runs on every node in order; what the
    callback mutates is the threaded [state]. *)
Definition each {S : Type} (set : MatchedSet) (callback : nat -> Node -> S -> S)
    (state : S) : S :=
  eachFrom 0 set callback state.

End Dom.

(** ** The host: [window.Rulia], the libraries' parsers and the engine *)

Module Rulia.
Import JS Dom.

Record Request := {
  method : string;
  url : string;
  headers : option (list (string * string))   (* [None]: no [headers] field *)
}.

(** Modelled from the spec: the entries of [IGetMangaListResult.list]
    (MangaSummary), declared in the host's typings, which are not among the
    sources. *)
Record MangaSummary := {
  summaryTitle : string;
  summaryUrl : string;
  summaryCoverUrl : string
}.

(** Modelled from the spec: [IGetMangaListResult] (MangaListResult).  The
    record lives in a module of its own so that its field keeps the plugin's
    name, [list]. *)
Module IGetMangaListResult.
Record t := {
  list : Datatypes.list MangaSummary
}.
End IGetMangaListResult.

(** Modelled from the spec: the entries of [IGetMangaDataResult.chapterList]
    (ChapterRef). *)
Record ChapterRef := {
  chapterTitle : string;
  chapterUrl : string
}.

(** Modelled from the spec: [IGetMangaDataResult] (MangaDetail). *)
Record IGetMangaDataResult := {
  title : string;
  description : string;
  coverUrl : string;
  chapterList : list ChapterRef
}.

(** Modelled from the spec: [IRuliaChapterImage] (ChapterImage).  The url is
    whatever value the script's array holds: the cast to [string[]] checks
    nothing. *)
Record IRuliaChapterImage := {
  imageUrl : Value;
  width : Z;
  height : Z
}.

Inductive Result :=
| MangaList (r : IGetMangaListResult.t)
| MangaData (r : IGetMangaDataResult)
| ChapterImages (r : list IRuliaChapterImage).

(** The three ways a response body becomes a document. *)
Inductive ParserApi :=
| jQueryParseHTML   (* $($.parseHTML(text)) *)
| jQueryOfString    (* $(text) *)
| cheerioLoad.      (* load(text) *)

(** What the plugin is run against.  Each field answers one kind of call; a
    [Throw] is a rejected promise or a thrown value. *)
Record Host := {
  network : Request -> Completion string;
  jsonParser : string -> Completion Value;
  uriEncoder : string -> Completion string;
  htmlParser : ParserApi -> Value -> Completion (list Node);
  scriptEngine : string -> Completion Value
}.

(** The calls that leave the plugin, in the order they are made.  The
    host's own [appToast], [endWithResult] and [endWithException] return
    normally. *)
Inductive Event :=
| AppToast (message : string)
| HttpRequest (request : Request)
| JsonParse (text : string)
| HtmlParse (api : ParserApi) (input : Value)
| NewFunction (body : string)
| EndWithResult (result : Result)
| EndWithException (message : Value).

(** A run of an async function: the log of its calls and how it settled
    ([Normal]: resolved, [Throw]: rejected). *)
Definition M (A : Type) : Type := (list Event * Completion A)%type.

Definition ret {A : Type} (a : A) : M A := ([], Normal a).

Definition bind {A B : Type} (m : M A) (k : A -> M B) : M B :=
  match m with
  | (log, Normal a) => let '(log', c) := k a in (log ++ log', c)
  | (log, Throw e) => (log, Throw e)
  end.

(** [try { body } catch (error) { handler }]. *)
Definition tryCatch {A : Type} (body : M A) (handler : Value -> M A) : M A :=
  match body with
  | (log, Throw e) => let '(log', c) := handler e in (log ++ log', c)
  | (log, Normal a) => (log, Normal a)
  end.

Definition emit (e : Event) : M unit := ([e], Normal tt).

Definition lift {A : Type} (c : Completion A) : M A := ([], c).

Definition events {A : Type} (m : M A) : list Event := fst m.

Definition settled {A : Type} (m : M A) : Completion A := snd m.

Declare Scope rulia_scope.
Delimit Scope rulia_scope with rulia.
Notation "x <- m ;; k" := (bind m (fun x => k))
  (at level 61, m at next level, right associativity) : rulia_scope.
Notation "m ;; k" := (bind m (fun _ => k))
  (at level 61, right associativity) : rulia_scope.

Section Calls.
Variable host : Host.

Definition appToast (message : string) : M unit := emit (AppToast message).

Definition httpRequest (request : Request) : M string :=
  bind (emit (HttpRequest request)) (fun _ => lift (network host request)).

Definition JSON_parse (text : string) : M Value :=
  bind (emit (JsonParse text)) (fun _ => lift (jsonParser host text)).

Definition encodeURIComponent (text : string) : M string :=
  lift (uriEncoder host text).

Definition parseDocument (api : ParserApi) (input : Value) : M (list Node) :=
  bind (emit (HtmlParse api input)) (fun _ => lift (htmlParser host api input)).

(** [new Function(body)()]. *)
Definition callNewFunction (body : string) : M Value :=
  bind (emit (NewFunction body)) (fun _ => lift (scriptEngine host body)).

Definition endWithResult (result : Result) : M unit := emit (EndWithResult result).

Definition endWithException (message : Value) : M unit :=
  emit (EndWithException message).

End Calls.

(** Projections of a log. *)
Definition requested (log : list Event) : list string :=
  flat_map (fun e => match e with HttpRequest r => [url r] | _ => [] end) log.

Definition decoded (log : list Event) : list string :=
  flat_map (fun e => match e with JsonParse t => [t] | _ => [] end) log.

Definition parsed (log : list Event) : list Value :=
  flat_map (fun e => match e with HtmlParse _ v => [v] | _ => [] end) log.

Definition evaluated (log : list Event) : list string :=
  flat_map (fun e => match e with NewFunction b => [b] | _ => [] end) log.

Definition results (log : list Event) : list Result :=
  flat_map (fun e => match e with EndWithResult r => [r] | _ => [] end) log.

Definition exceptions (log : list Event) : list Value :=
  flat_map (fun e => match e with EndWithException m => [m] | _ => [] end) log.

Definition withoutToasts (log : list Event) : list Event :=
  filter (fun e => match e with AppToast _ => false | _ => true end) log.

End Rulia.

(** ** The plugin, browser variant (jQuery)

    The first [index.ts].  [$document] is the set of top-level nodes that
    [$.parseHTML] returns, and [$(el)] is the one-element set [[el]]. *)

Module WithJQuery.
Import JS Dom Rulia.
Local Open Scope string_scope.
Local Open Scope rulia_scope.

Definition userAgent : string :=
  "Mozilla/5.0 (Windows NT 10.0; Win64; x64) AppleWebKit/537.36 (KHTML, like Gecko) Chrome/122.0.0.0 Safari/537.36".

Definition cookie : string :=
  "fvt=1710871788; cf_clearance=c.OJYsmrGQB8.nTOvGTQz4mb3_IEJn6blKgedL7hcR8-1710871789-1.0.1.1-6nDbdoOy60oQocDFuyU0JdYJerYEf.DP0UwTebPywwvcWf7roin..XEFbZmXjBg0ycuI482suOnnpDYCAzn1KA".

(** [parseIntSafe(value, fallback = 0)]; the plugin always passes the
    fallback. *)
Definition parseIntSafe (value : string) (fallback : Number) : Number :=
  let parsed := parseInt value in
  if isNaN parsed then fallback else parsed.

Section Operations.
Variable host : Host.

Definition handleMangaListSearch (page : Number) (keyword : string) : M unit :=
  tryCatch
    (let result := {| IGetMangaListResult.list := [] |} in
     word <- encodeURIComponent host keyword ;;
     rawStr <- httpRequest host
       {| method := "GET";
          url := "https://mto.to/search?word=" ++ word ++ "&page=" ++ toString page;
          headers := Some [("Cookie", cookie); ("User-Agent", userAgent)] |} ;;
     document <- parseDocument host jQueryOfString (Str rawStr) ;;
     let mangaList := children ".item" (find "#series-list" document) in
     let result :=
       each mangaList
         (fun _ el result =>
            let a := find ".item-title" [el] in
            let title := orElse (Some (text a)) "" in
            let url :=
              match truthy (attr "href" a) with
              | Some href => "https://mto.to" ++ href
              | None => ""
              end in
            let cover := find ".item-cover img" [el] in
            let coverSrc := orElse (attr "src" cover) "" in
            {| IGetMangaListResult.list :=
                 (IGetMangaListResult.list result ++
                  [{| summaryTitle := title;
                      summaryUrl := url;
                      summaryCoverUrl := coverSrc |}])%list |})
         result in
     endWithResult (MangaList result))
    (fun error =>
       message <- lift (get error "message") ;;
       endWithException message).

Definition getMangaList (rawPage rawPageSize : string)
    (keyword rawFilterOptions : option string) : M unit :=
  let page := parseIntSafe rawPage (Int 1) in
  appToast ("Request page " ++ rawPage ++ ", keyword: " ++ template keyword) ;;
  match truthy keyword with
  | Some keyword => handleMangaListSearch page keyword
  | None =>
      let url := "https://mto.to/latest" in
      let url := if gt page (Int 1) then (url ++ "?page=") ++ toString page else url in
      appToast url ;;
      tryCatch
        (rawStr <- httpRequest host
           {| method := "GET";
              url := url;
              headers := Some [("Cookie", cookie); ("User-Agent", userAgent)] |} ;;
         document <-
           (if le page (Int 1)
            then parseDocument host jQueryParseHTML (Str rawStr)
            else
              response <- JSON_parse host rawStr ;;
              res <- lift (get response "res") ;;
              html <- lift (get res "html") ;;
              parseDocument host jQueryParseHTML html) ;;
         let result := {| IGetMangaListResult.list := [] |} in
         let mangaList := children ".item" (find "#series-list" document) in
         let result :=
           each mangaList
             (fun _ el result =>
                let a := find ".item-title" [el] in
                let title := orElse (Some (text a)) "" in
                let url :=
                  match truthy (attr "href" a) with
                  | Some href => "https://mto.to" ++ href
                  | None => ""
                  end in
                let cover := find ".item-cover img" [el] in
                let coverSrc := orElse (attr "src" cover) "" in
                {| IGetMangaListResult.list :=
                     (IGetMangaListResult.list result ++
                      [{| summaryTitle := title;
                          summaryUrl := url;
                          summaryCoverUrl := coverSrc |}])%list |})
             result in
         endWithResult (MangaList result))
        (fun error =>
           message <- lift (get error "message") ;;
           endWithException message)
  end.

Definition getMangaData (dataPageUrl : string) : M unit :=
  tryCatch
    (let result :=
       {| title := ""; description := ""; coverUrl := ""; chapterList := [] |} in
     rawStr <- httpRequest host
       {| method := "GET";
          url := dataPageUrl;
          headers := Some [("Cookie", cookie); ("User-Agent", userAgent)] |} ;;
     document <- parseDocument host jQueryParseHTML (Str rawStr) ;;
     let titleText := orElse (Some (text (find ".item-title" document))) "" in
     let result :=
       {| title := titleText; description := description result;
          coverUrl := coverUrl result; chapterList := chapterList result |} in
     let descText :=
       orElse (Some (text (find "#limit-height-body-summary .limit-html" document))) "" in
     let result :=
       {| title := title result; description := descText;
          coverUrl := coverUrl result; chapterList := chapterList result |} in
     let coverImg := children "img" (find ".attr-cover" document) in
     let coverUrl' := orElse (attr "src" coverImg) "" in
     let result :=
       {| title := title result; description := description result;
          coverUrl := coverUrl'; chapterList := chapterList result |} in
     let episodeList := children ".item" (find ".episode-list .main" document) in
     let result :=
       each episodeList
         (fun _ el result =>
            let a := find ".chapt" [el] in
            let title' := orElse (Some (text a)) "" in
            let url :=
              match truthy (attr "href" a) with
              | Some href => "https://mto.to" ++ href
              | None => ""
              end in
            {| title := title result; description := description result;
               coverUrl := coverUrl result;
               chapterList :=
                 (chapterList result ++
                  [{| chapterTitle := title'; chapterUrl := url |}])%list |})
         result in
     endWithResult (MangaData result))
    (fun error =>
       message <- lift (get error "message") ;;
       endWithException message).

Definition getChapterImageList (chapterUrl : string) : M unit :=
  tryCatch
    (rawStr <- httpRequest host
       {| method := "GET";
          url := chapterUrl;
          headers := Some [("Cookie", cookie); ("User-Agent", userAgent)] |} ;;
     document <- parseDocument host jQueryParseHTML (Str rawStr) ;;
     let scriptText :=
       each (find "script" document)
         (fun _ el scriptText =>
            let text := text [el] in
            if (String.length scriptText <=? String.length text)%nat
            then text
            else scriptText)
         "" in
     imgHttps <- callNewFunction host (scriptText ++ ";return imgHttps;") ;;
     result <- lift (arrayMap imgHttps "imgHttps"
                       (fun url => {| imageUrl := url; width := 1; height := 1 |})) ;;
     endWithResult (ChapterImages result))
    (fun error =>
       message <- lift (get error "message") ;;
       endWithException message).

Definition getImageUrl (path : string) : M string := ret path.

End Operations.

End WithJQuery.

(** ** The plugin, cheerio variant

    The second [index.ts]: no request headers, no toasts, and [load(text)]
    gives a [$] that queries the whole document, so [$(selector)] is
    [selectAll selector document]. *)

Module WithCheerio.
Import JS Dom Rulia.
Local Open Scope string_scope.
Local Open Scope rulia_scope.

(** [parseIntSafe(value, fallback = 0)]; the plugin always passes the
    fallback. *)
Definition parseIntSafe (value : string) (fallback : Number) : Number :=
  let parsed := parseInt value in
  if isNaN parsed then fallback else parsed.

Section Operations.
Variable host : Host.

Definition handleMangaListSearch (page : Number) (keyword : string) : M unit :=
  tryCatch
    (let result := {| IGetMangaListResult.list := [] |} in
     word <- encodeURIComponent host keyword ;;
     rawStr <- httpRequest host
       {| method := "GET";
          url := "https://mto.to/search?word=" ++ word ++ "&page=" ++ toString page;
          headers := None |} ;;
     document <- parseDocument host cheerioLoad (Str rawStr) ;;
     let mangaList := children ".item" (selectAll "#series-list" document) in
     let result :=
       each mangaList
         (fun _ el result =>
            let a := find ".item-title" [el] in
            let title := orElse (Some (text a)) "" in
            let url :=
              match truthy (attr "href" a) with
              | Some href => "https://mto.to" ++ href
              | None => ""
              end in
            let cover := find ".item-cover img" [el] in
            let coverSrc := orElse (attr "src" cover) "" in
            {| IGetMangaListResult.list :=
                 (IGetMangaListResult.list result ++
                  [{| summaryTitle := title;
                      summaryUrl := url;
                      summaryCoverUrl := coverSrc |}])%list |})
         result in
     endWithResult (MangaList result))
    (fun error =>
       message <- lift (get error "message") ;;
       endWithException message).

Definition getMangaList (rawPage rawPageSize : string)
    (keyword rawFilterOptions : option string) : M unit :=
  let page := parseIntSafe rawPage (Int 1) in
  match truthy keyword with
  | Some keyword => handleMangaListSearch page keyword
  | None =>
      let url := "https://mto.to/latest" in
      let url := if gt page (Int 1) then (url ++ "?page=") ++ toString page else url in
      tryCatch
        (rawStr <- httpRequest host
           {| method := "GET";
              url := url;
              headers := None |} ;;
         document <-
           (if le page (Int 1)
            then parseDocument host cheerioLoad (Str rawStr)
            else
              response <- JSON_parse host rawStr ;;
              res <- lift (get response "res") ;;
              html <- lift (get res "html") ;;
              parseDocument host cheerioLoad html) ;;
         let result := {| IGetMangaListResult.list := [] |} in
         let mangaList := children ".item" (selectAll "#series-list" document) in
         let result :=
           each mangaList
             (fun _ el result =>
                let a := find ".item-title" [el] in
                let title := orElse (Some (text a)) "" in
                let url :=
                  match truthy (attr "href" a) with
                  | Some href => "https://mto.to" ++ href
                  | None => ""
                  end in
                let cover := find ".item-cover img" [el] in
                let coverSrc := orElse (attr "src" cover) "" in
                {| IGetMangaListResult.list :=
                     (IGetMangaListResult.list result ++
                      [{| summaryTitle := title;
                          summaryUrl := url;
                          summaryCoverUrl := coverSrc |}])%list |})
             result in
         endWithResult (MangaList result))
        (fun error =>
           message <- lift (get error "message") ;;
           endWithException message)
  end.

Definition getMangaData (dataPageUrl : string) : M unit :=
  tryCatch
    (let result :=
       {| title := ""; description := ""; coverUrl := ""; chapterList := [] |} in
     rawStr <- httpRequest host
       {| method := "GET";
          url := dataPageUrl;
          headers := None |} ;;
     document <- parseDocument host cheerioLoad (Str rawStr) ;;
     let titleText := orElse (Some (text (selectAll ".item-title" document))) "" in
     let result :=
       {| title := titleText; description := description result;
          coverUrl := coverUrl result; chapterList := chapterList result |} in
     let descText :=
       orElse (Some (text (selectAll "#limit-height-body-summary .limit-html" document))) "" in
     let result :=
       {| title := title result; description := descText;
          coverUrl := coverUrl result; chapterList := chapterList result |} in
     let coverImg := children "img" (selectAll ".attr-cover" document) in
     let coverUrl' := orElse (attr "src" coverImg) "" in
     let result :=
       {| title := title result; description := description result;
          coverUrl := coverUrl'; chapterList := chapterList result |} in
     let episodeList := children ".item" (selectAll ".episode-list .main" document) in
     let result :=
       each episodeList
         (fun _ el result =>
            let a := find ".chapt" [el] in
            let title' := orElse (Some (text a)) "" in
            let url :=
              match truthy (attr "href" a) with
              | Some href => "https://mto.to" ++ href
              | None => ""
              end in
            {| title := title result; description := description result;
               coverUrl := coverUrl result;
               chapterList :=
                 (chapterList result ++
                  [{| chapterTitle := title'; chapterUrl := url |}])%list |})
         result in
     endWithResult (MangaData result))
    (fun error =>
       message <- lift (get error "message") ;;
       endWithException message).

Definition getChapterImageList (chapterUrl : string) : M unit :=
  tryCatch
    (rawStr <- httpRequest host
       {| method := "GET";
          url := chapterUrl;
          headers := None |} ;;
     document <- parseDocument host cheerioLoad (Str rawStr) ;;
     let scriptText :=
       each (selectAll "script" document)
         (fun _ el scriptText =>
            let text := text [el] in
            if (String.length scriptText <=? String.length text)%nat
            then text
            else scriptText)
         "" in
     imgHttps <- callNewFunction host (scriptText ++ ";return imgHttps;") ;;
     result <- lift (arrayMap imgHttps "imgHttps"
                       (fun url => {| imageUrl := url; width := 1; height := 1 |})) ;;
     endWithResult (ChapterImages result))
    (fun error =>
       message <- lift (get error "message") ;;
       endWithException message).

Definition getImageUrl (path : string) : M string := ret path.

End Operations.

End WithCheerio.

(** ** Both variants at once *)

Module Plugin.
Import JS Dom Rulia.

Inductive Variant :=
| jQuery
| cheerio.

(** How a variant queries a parsed document: jQuery searches below the
    top-level nodes, cheerio the whole document. *)
Definition query (v : Variant) (document : list Node) (selector : string) : MatchedSet :=
  match v with
  | jQuery => find selector document
  | cheerio => selectAll selector document
  end.

Definition getMangaList (v : Variant) :=
  match v with
  | jQuery => WithJQuery.getMangaList
  | cheerio => WithCheerio.getMangaList
  end.

Definition handleMangaListSearch (v : Variant) :=
  match v with
  | jQuery => WithJQuery.handleMangaListSearch
  | cheerio => WithCheerio.handleMangaListSearch
  end.

Definition getMangaData (v : Variant) :=
  match v with
  | jQuery => WithJQuery.getMangaData
  | cheerio => WithCheerio.getMangaData
  end.

Definition getChapterImageList (v : Variant) :=
  match v with
  | jQuery => WithJQuery.getChapterImageList
  | cheerio => WithCheerio.getChapterImageList
  end.

(** The headers a variant sends with every request. *)
Definition requestHeaders (v : Variant) : option (list (string * string)) :=
  match v with
  | jQuery =>
      Some [("Cookie", WithJQuery.cookie); ("User-Agent", WithJQuery.userAgent)]
  | cheerio => None
  end.

(** The request a variant makes for [url]. *)
Definition request (v : Variant) (url : string) : Request :=
  {| method := "GET"; url := url; headers := requestHeaders v |}.

(** The parser entry point a variant uses for the listing and the detail
    pages, and the one it uses for search results. *)
Definition pageParser (v : Variant) : ParserApi :=
  match v with
  | jQuery => jQueryParseHTML
  | cheerio => cheerioLoad
  end.

Definition searchParser (v : Variant) : ParserApi :=
  match v with
  | jQuery => jQueryOfString
  | cheerio => cheerioLoad
  end.

End Plugin.

(** ** The rules of the specification

    The extraction rules as the specification words them, to compare the
    plugin's inline loops with. *)

Module Spec.
Import JS Dom Rulia.
Local Open Scope string_scope.

Definition origin : string := "https://mto.to".

(** [absolute(href) = href ? origin + href : ''] *)
Definition absolute (href : option string) : string :=
  match href with
  | Some h => if String.eqb h "" then "" else origin ++ h
  | None => ""
  end.

(** A [src] attribute: passed through, [''] when absent. *)
Definition verbatim (src : option string) : string :=
  match src with
  | Some s => s
  | None => ""
  end.

(** List-item rule, one item. *)
Definition listItem (el : Node) : MangaSummary :=
  {| summaryTitle := text (find ".item-title" [el]);
     summaryUrl := absolute (attr "href" (find ".item-title" [el]));
     summaryCoverUrl := verbatim (attr "src" (find ".item-cover img" [el])) |}.

(** The items of a document: [#series-list], direct children with class
    [item]. *)
Definition listItems (q : string -> MatchedSet) : MatchedSet :=
  children ".item" (q "#series-list").

Definition listRule (q : string -> MatchedSet) : IGetMangaListResult.t :=
  {| IGetMangaListResult.list := map listItem (listItems q) |}.

Definition chapterRef (el : Node) : ChapterRef :=
  {| chapterTitle := text (find ".chapt" [el]);
     chapterUrl := absolute (attr "href" (find ".chapt" [el])) |}.

Definition episodes (q : string -> MatchedSet) : MatchedSet :=
  children ".item" (q ".episode-list .main").

(** Detail rule. *)
Definition detailRule (q : string -> MatchedSet) : IGetMangaDataResult :=
  {| title := text (q ".item-title");
     description := text (q "#limit-height-body-summary .limit-html");
     coverUrl := verbatim (attr "src" (children "img" (q ".attr-cover")));
     chapterList := map chapterRef (episodes q) |}.

(** The source texts of the inline scripts, in document order. *)
Definition scriptTexts (q : string -> MatchedSet) : list string :=
  map (fun el => text [el]) (q "script").


(** The script the plugin's loop selects (it replaces on [>=]). *)
Definition lastLongest (texts : list string) : string :=
  fold_left
    (fun best t => if (String.length best <=? String.length t)%nat then t else best)
    texts "".

(** Image-list rule on the value of [imgHttps]. *)
Definition chapterImage (url : Value) : IRuliaChapterImage :=
  {| imageUrl := url; width := 1; height := 1 |}.

(** What the url of an [href]-sourced field must be. *)
Definition hrefPolicy (href : option string) (url : string) : Prop :=
  (forall h, href = Some h -> h <> "" -> url = "https://mto.to" ++ h) /\
  (href = None \/ href = Some "" -> url = "").

(** What a [src]-sourced field must be. *)
Definition srcPolicy (src : option string) (coverUrl : string) : Prop :=
  (forall s, src = Some s -> coverUrl = s) /\
  (src = None -> coverUrl = "").

(** The run handed [doc] to the extraction rules: the parser was called and
    answered [doc]. *)
Definition parsedTo (host : Host) (log : list Event) (doc : list Node) : Prop :=
  exists api input,
    In (HtmlParse api input) log /\ htmlParser host api input = Normal doc.

(** How many times the two result channels were used. *)
Definition channelUses (log : list Event) : nat :=
  length (results log) + length (exceptions log).

(** A thrown value whose [message] can be read: anything but [null] and
    [undefined]. *)
Definition hasMessage (e : Value) : Prop := e <> Null /\ e <> Undefined.

(** A host all of whose failures have a message that can be read. *)
Definition failsWithMessages (host : Host) : Prop :=
  (forall request e, network host request = Throw e -> hasMessage e) /\
  (forall text e, jsonParser host text = Throw e -> hasMessage e) /\
  (forall text e, uriEncoder host text = Throw e -> hasMessage e) /\
  (forall api input e, htmlParser host api input = Throw e -> hasMessage e) /\
  (forall body e, scriptEngine host body = Throw e -> hasMessage e).

End Spec.

(** ** A concrete host

    Pages, parsers and an engine to run the plugin on: a listing with three
    items (a complete one, one with nothing inside, one with an empty href),
    its second page inside a JSON envelope, search results, a detail page and
    three chapter pages. *)

Module Demo.
Import JS Dom Rulia.
Local Open Scope string_scope.

(** A percent-encoded byte, and [encodeURIComponent] on code units below
    256 (none of which is a surrogate, so it never throws). *)
Definition hexDigit (n : N) : ascii :=
  ascii_of_N (if (n <? 10)%N then 48 + n else 55 + n).

Definition percent (n : N) : string :=
  String "%" (String (hexDigit (n / 16)) (String (hexDigit (n mod 16)) "")).

Definition unreserved (c : ascii) : bool :=
  let n := N_of_ascii c in
  ((48 <=? n) && (n <=? 57) || (65 <=? n) && (n <=? 90) || (97 <=? n) && (n <=? 122)
   || existsb (N.eqb n) [45; 95; 46; 33; 126; 42; 39; 40; 41])%N.

Fixpoint encodeLatin1 (s : string) : string :=
  match s with
  | EmptyString => ""
  | String c r =>
      let n := N_of_ascii c in
      (if unreserved c then String c ""
       else if (n <? 128)%N then percent n
       else percent (192 + n / 64) ++ percent (128 + n mod 64))
      ++ encodeLatin1 r
  end.

Definition item (kids : list Node) : Node :=
  Element "div" [("class", "col-24 item line-b")] kids.

Definition completeItem (href title src : string) : Node :=
  item
    [Element "a" [("class", "item-cover"); ("href", href)]
       [Element "img" [("src", src)] []];
     Element "div" [("class", "item-text")]
       [Element "a" [("class", "item-title"); ("href", href)] [Text title]]].

Definition page (items : list Node) : list Node :=
  [Element "div" [("id", "mainer")]
     [Element "div" [("id", "series-list"); ("class", "row")] items]].

Definition firstPage : list Node :=
  page
    [completeItem "/series/68765/goodbye-isekai-tensei" "Goodbye Isekai Tensei"
       "https://static.example/68765.jpg";
     item [];
     item [Element "a" [("class", "item-title"); ("href", "")] [Text "Untitled"]]].

Definition secondPage : list Node :=
  page [completeItem "/series/70001/second-page" "Second Page"
          "https://static.example/70001.jpg"].

Definition searchPage : list Node :=
  page [completeItem "/series/12/one-piece" "One Piece"
          "https://static.example/12.jpg"].

Definition emptyPage : list Node :=
  [Element "div" [("id", "mainer")] [Text "nothing here"]].

Definition detailPage : list Node :=
  [Element "div" [("id", "mainer")]
     [Element "h3" [("class", "item-title")] [Text "Example Series"];
      Element "div" [("class", "episode-list")]
        [Element "div" [("class", "main")]
           [Element "div" [("class", "p-2 item")]
              [Element "a" [("class", "visited chapt"); ("href", "/chapter/42")]
                 [Text "Ch. 1"]]]]]].

Definition scripts (sources : list string) : list Node :=
  [Element "div" [("id", "viewer")]
     (map (fun source => Element "script" [] [Text source]) sources)].

Definition chapterPage : list Node :=
  scripts ["var a = 1;"; "const imgHttps = ['u1','u2'];"].

(** Two scripts of the same length; only the first one defines [imgHttps]. *)
Definition tiedPage : list Node :=
  scripts ["const imgHttps=['a'];"; "const pages = ['bb'];"].

Definition throwingPage : list Node :=
  scripts ["throw null"].

Definition dq : string := String (ascii_of_nat 34) "".

(** The body of [https://mto.to/latest?page=2]:
    [{"eno":0,"err":null,"res":{"html":"<div id='mainer'>2</div>","more":true}}] *)
Definition envelopeText : string :=
  "{" ++ dq ++ "eno" ++ dq ++ ":0," ++ dq ++ "err" ++ dq ++ ":null," ++ dq ++ "res"
  ++ dq ++ ":{" ++ dq ++ "html" ++ dq ++ ":" ++ dq ++ "<div id='mainer'>2</div>" ++ dq
  ++ "," ++ dq ++ "more" ++ dq ++ ":true}}".

Definition envelope : Value :=
  Obj [("eno", Num (Int 0)); ("err", Null);
       ("res", Obj [("html", Str "<div id='mainer'>2</div>"); ("more", Boolean true)])].

Definition bodies : list (string * string) :=
  [("https://mto.to/latest", "<div id='mainer'>1</div>");
   ("https://mto.to/latest?page=2", envelopeText);
   ("https://mto.to/search?word=one%20piece&page=1", "<div id='mainer'>one piece</div>");
   ("https://mto.to/series/1", "<div id='mainer'>Example Series</div>");
   ("https://mto.to/series/2", "<div id='mainer'>nothing here</div>");
   ("https://mto.to/chapter/1", "<div id='viewer'>chapter</div>");
   ("https://mto.to/chapter/2", "<div id='viewer'>tied</div>");
   ("https://mto.to/chapter/3", "<div id='viewer'>throw null</div>")].

Definition documents : list (string * list Node) :=
  [("<div id='mainer'>1</div>", firstPage);
   ("<div id='mainer'>2</div>", secondPage);
   ("<div id='mainer'>one piece</div>", searchPage);
   ("<div id='mainer'>Example Series</div>", detailPage);
   ("<div id='mainer'>nothing here</div>", emptyPage);
   ("<div id='viewer'>chapter</div>", chapterPage);
   ("<div id='viewer'>tied</div>", tiedPage);
   ("<div id='viewer'>throw null</div>", throwingPage)].

(** What the engine answers to [new Function(body)()]. *)
Definition programs : list (string * Completion Value) :=
  [("const imgHttps = ['u1','u2'];;return imgHttps;", Normal (Arr [Str "u1"; Str "u2"]));
   ("const imgHttps=['a'];;return imgHttps;", Normal (Arr [Str "a"]));
   ("throw null;return imgHttps;", Throw Null)].

Definition host : Host :=
  {| network := fun request =>
       match lookup (url request) bodies with
       | Some body => Normal body
       | None => Throw (ErrorObject "Error" "Request failed with status 404")
       end;
     jsonParser := fun text =>
       if String.eqb text envelopeText then Normal envelope
       else Throw (ErrorObject "SyntaxError" "Unexpected token < in JSON at position 0");
     uriEncoder := fun text => Normal (encodeLatin1 text);
     htmlParser := fun _ input =>
       match input with
       | Str text =>
           match lookup text documents with
           | Some document => Normal document
           | None => Normal []
           end
       | _ => Normal []
       end;
     scriptEngine := fun body =>
       match lookup body programs with
       | Some answer => answer
       | None => Throw (ErrorObject "ReferenceError" "imgHttps is not defined")
       end |}.

End Demo.

(** ** Document order

    Document order as the specification means it, to compare the order of
    the plugin's matched sets with: the child nodes of an element are in
    document order, and so is the depth-first walk of a document, each
    element before its descendants.  These walks follow the specification's
    words and are no function of the plugin; [query_scripts] and
    [items_in_document_order] below relate the plugin's queries to them. *)

Module Order.
Import JS Dom Rulia.


(** The nodes whose subtrees a variant's query searches: jQuery's
    [$document.find] looks below the top-level nodes that [$.parseHTML]
    returned, cheerio's [$] at the whole loaded document. *)
Definition forest (v : Plugin.Variant) (document : list Node) : list Node :=
  match v with
  | Plugin.jQuery => flat_map childNodesOf document
  | Plugin.cheerio => document
  end.


(** The elements of a subtree, in document order, that have class [item]
    and whose parent has the id [series-list]; [inContainer] tells whether
    the parent of [n] is such a parent. *)
Fixpoint itemsBelow (inContainer : bool) (n : Node) : list Node :=
  match n with
  | Text _ => []
  | Element _ _ kids =>
      (if inContainer && matches (ByClass "item") n then [n] else [])
      ++ flat_map (itemsBelow (matches (ById "series-list") n)) kids
  end.

(** The items of a document in document order. *)
Definition itemsInDocumentOrder (v : Plugin.Variant) (document : list Node) : list Node :=
  flat_map (itemsBelow false) (forest v document).

End Order.

(** ** Two more pages

    A listing where a second [#series-list] sits inside an item of the
    first, and a chapter page as each library parses it: [load] keeps the
    inline script, [$.parseHTML] (which by default keeps no script) drops
    it. *)

Module Pages.
Import JS Dom Rulia.
Local Open Scope string_scope.

Definition link (href title : string) : Node :=
  Element "a" [("class", "item-title"); ("href", href)] [Text title].

Definition itemB : Node := Demo.item [link "/series/b" "B"].

Definition itemA : Node :=
  Demo.item
    [link "/series/a" "A";
     Element "div" [("id", "series-list")] [itemB]].

Definition itemC : Node := Demo.item [link "/series/c" "C"].

(** In document order the items are A, B (inside A) and C. *)
Definition nestedPage : list Node := Demo.page [itemA; itemC].

Definition chapterBody : string :=
  "<div id='viewer'><script>const imgHttps = ['u1','u2'];</script></div>".

Definition host : Host :=
  {| network := fun request =>
       if String.eqb (url request) "https://mto.to/latest"
       then Normal "<div id='mainer'>nested</div>"
       else if String.eqb (url request) "https://mto.to/chapter/8"
       then Normal chapterBody
       else Throw (ErrorObject "Error" "Request failed with status 404");
     jsonParser := jsonParser Demo.host;
     uriEncoder := uriEncoder Demo.host;
     htmlParser := fun api input =>
       match input with
       | Str text =>
           if String.eqb text "<div id='mainer'>nested</div>" then Normal nestedPage
           else if String.eqb text chapterBody
           then match api with
                | cheerioLoad => Normal (Demo.scripts ["const imgHttps = ['u1','u2'];"])
                | _ => Normal (Demo.scripts [])
                end
           else Normal []
       | _ => Normal []
       end;
     scriptEngine := scriptEngine Demo.host |}.

End Pages.

(** * Properties *)

Import JS Dom Rulia.

(** ** The engine primitives *)

Lemma parseIntSafe_same value fallback :
  WithCheerio.parseIntSafe value fallback = WithJQuery.parseIntSafe value fallback.
Proof. reflexivity. Qed.

(** With a numeric fallback the page is a number, never [NaN]. *)
Lemma parseIntSafe_number value z :
  exists page, WithJQuery.parseIntSafe value (Int z) = Int page.
Proof.
  unfold WithJQuery.parseIntSafe.
  destruct (parseInt value) as [|n]; cbn.
  - now exists z.
  - now exists n.
Qed.

Lemma parseIntSafe_fallback value fallback :
  parseInt value = NaN -> WithJQuery.parseIntSafe value fallback = fallback.
Proof.
  intros H. unfold WithJQuery.parseIntSafe. now rewrite H.
Qed.

Lemma gt_le_int z : gt (Int z) (Int 1) = negb (le (Int z) (Int 1)).
Proof.
  cbn. destruct (Z.ltb_spec 1 z), (Z.leb_spec z 1); (reflexivity || lia).
Qed.

Lemma orElse_string s : orElse (Some s) "" = s.
Proof.
  unfold orElse, truthy. now destruct (String.eqb_spec s "").
Qed.

Lemma orElse_verbatim src : orElse src "" = Spec.verbatim src.
Proof.
  unfold orElse, truthy, Spec.verbatim. destruct src as [s|]; [|reflexivity].
  now destruct (String.eqb_spec s "").
Qed.

Lemma truthy_absolute href :
  match truthy href with
  | Some h => ("https://mto.to" ++ h)%string
  | None => ""
  end = Spec.absolute href.
Proof.
  unfold truthy, Spec.absolute, Spec.origin. destruct href as [h|]; [|reflexivity].
  now destruct (String.eqb h "").
Qed.

Lemma absolute_policy href : Spec.hrefPolicy href (Spec.absolute href).
Proof.
  unfold Spec.hrefPolicy, Spec.absolute, Spec.origin. split.
  - intros h -> Hh. now destruct (String.eqb_spec h "").
  - now intros [->| ->].
Qed.

Lemma verbatim_policy src : Spec.srcPolicy src (Spec.verbatim src).
Proof.
  unfold Spec.srcPolicy, Spec.verbatim. split.
  - now intros s ->.
  - now intros ->.
Qed.

(** ** The query API on an empty matched set *)

Lemma text_nil : text [] = "".
Proof. reflexivity. Qed.

Lemma attr_nil name : attr name [] = None.
Proof. reflexivity. Qed.

Lemma children_nil selector : children selector [] = [].
Proof. reflexivity. Qed.

Lemma find_nil selector : find selector [] = [].
Proof. reflexivity. Qed.

(** ** The query API on the concrete pages *)

(** [find] looks below the nodes of the set, [selectAll] at the whole
    document: a top-level [#mainer] is found by cheerio's [$] only. *)
Example find_skips_the_roots :
  find "#mainer" Demo.firstPage = [] /\
  length (selectAll "#mainer" Demo.firstPage) = 1.
Proof. split; reflexivity. Qed.

Example items_of_the_first_page :
  map (fun el => text (find ".item-title" [el]))
    (children ".item" (find "#series-list" Demo.firstPage))
  = ["Goodbye Isekai Tensei"; ""; "Untitled"]%string.
Proof. reflexivity. Qed.

(** A class is one of the words of the [class] attribute, and the descendant
    combinator needs its ancestor inside the context. *)
Example descendant_selector :
  attr "src" (find ".item-cover img" Demo.firstPage)
  = Some "https://static.example/68765.jpg"%string /\
  find ".item-cover img"
    [Element "a" [("class", "item-cover")] [Element "img" [("src", "x")] []]]
  = [] /\
  find ".col-24" Demo.firstPage <> [] /\
  find ".col" Demo.firstPage = [].
Proof. repeat split; try reflexivity. discriminate. Qed.

Example detail_of_the_example_series :
  Spec.detailRule (fun selector => selectAll selector Demo.detailPage)
  = {| title := "Example Series"; description := ""; coverUrl := "";
       chapterList :=
         [{| chapterTitle := "Ch. 1"; chapterUrl := "https://mto.to/chapter/42" |}] |}.
Proof. reflexivity. Qed.

(** ** The loops *)

(** A callback that ignores the index folds the set from the left. *)
Lemma each_fold {S : Type} (f : S -> Node -> S) set state :
  each set (fun _ el st => f st el) state = fold_left f set state.
Proof.
  unfold each. generalize 0%nat.
  revert state. induction set as [|el rest IH]; intros state i; cbn; [reflexivity|].
  apply IH.
Qed.

(** The list loop pushes one entry per node of the set, in the set's order. *)
Lemma list_loop (g : Node -> MangaSummary) items :
  each items
    (fun _ el result =>
       {| IGetMangaListResult.list := IGetMangaListResult.list result ++ [g el] |})
    {| IGetMangaListResult.list := [] |}
  = {| IGetMangaListResult.list := map g items |}.
Proof.
  rewrite (each_fold
             (fun result el =>
                {| IGetMangaListResult.list :=
                     IGetMangaListResult.list result ++ [g el] |})).
  assert (H : forall acc,
             fold_left
               (fun result el =>
                  {| IGetMangaListResult.list :=
                       IGetMangaListResult.list result ++ [g el] |})
               items {| IGetMangaListResult.list := acc |}
             = {| IGetMangaListResult.list := acc ++ map g items |}).
  { induction items as [|el rest IH]; intros acc; cbn.
    - now rewrite app_nil_r.
    - rewrite IH, <- app_assoc. reflexivity. }
  apply H.
Qed.

(** The chapter loop leaves the other fields alone. *)
Lemma chapter_loop (g : Node -> ChapterRef) items t d c :
  each items
    (fun _ el result =>
       {| title := title result; description := description result;
          coverUrl := coverUrl result;
          chapterList := chapterList result ++ [g el] |})
    {| title := t; description := d; coverUrl := c; chapterList := [] |}
  = {| title := t; description := d; coverUrl := c; chapterList := map g items |}.
Proof.
  rewrite (each_fold
             (fun result el =>
                {| title := title result; description := description result;
                   coverUrl := coverUrl result;
                   chapterList := chapterList result ++ [g el] |})).
  assert (H : forall acc,
             fold_left
               (fun result el =>
                  {| title := title result; description := description result;
                     coverUrl := coverUrl result;
                     chapterList := chapterList result ++ [g el] |})
               items
               {| title := t; description := d; coverUrl := c; chapterList := acc |}
             = {| title := t; description := d; coverUrl := c;
                  chapterList := acc ++ map g items |}).
  { induction items as [|el rest IH]; intros acc; cbn.
    - now rewrite app_nil_r.
    - rewrite IH, <- app_assoc. reflexivity. }
  apply H.
Qed.

(** The script loop keeps the text it holds unless the next one is at least
    as long. *)
Lemma script_loop set :
  each set
    (fun _ el scriptText =>
       if (String.length scriptText <=? String.length (text [el]))%nat
       then text [el]
       else scriptText)
    ""
  = Spec.lastLongest (map (fun el => text [el]) set).
Proof.
  rewrite (each_fold
             (fun scriptText el =>
                if (String.length scriptText <=? String.length (text [el]))%nat
                then text [el]
                else scriptText)).
  unfold Spec.lastLongest. generalize "".
  induction set as [|el rest IH]; intros best; cbn; [reflexivity|apply IH].
Qed.

(** The entry the plugin builds for an item is the List-item rule's. *)
Lemma list_entry el :
  {| summaryTitle := orElse (Some (text (find ".item-title" [el]))) "";
     summaryUrl :=
       match truthy (attr "href" (find ".item-title" [el])) with
       | Some href => ("https://mto.to" ++ href)%string
       | None => ""
       end;
     summaryCoverUrl := orElse (attr "src" (find ".item-cover img" [el])) "" |}
  = Spec.listItem el.
Proof.
  unfold Spec.listItem.
  now rewrite orElse_string, truthy_absolute, orElse_verbatim.
Qed.

Lemma chapter_entry el :
  {| chapterTitle := orElse (Some (text (find ".chapt" [el]))) "";
     chapterUrl :=
       match truthy (attr "href" (find ".chapt" [el])) with
       | Some href => ("https://mto.to" ++ href)%string
       | None => ""
       end |}
  = Spec.chapterRef el.
Proof.
  unfold Spec.chapterRef.
  now rewrite orElse_string, truthy_absolute.
Qed.

(** The plugin's list loop computes the List-item rule. *)
Lemma list_loop_rule items :
  each items
    (fun _ el result =>
       {| IGetMangaListResult.list :=
            IGetMangaListResult.list result ++
            [{| summaryTitle := orElse (Some (text (find ".item-title" [el]))) "";
                summaryUrl :=
                  match truthy (attr "href" (find ".item-title" [el])) with
                  | Some href => ("https://mto.to" ++ href)%string
                  | None => ""
                  end;
                summaryCoverUrl :=
                  orElse (attr "src" (find ".item-cover img" [el])) "" |}] |})
    {| IGetMangaListResult.list := [] |}
  = {| IGetMangaListResult.list := map Spec.listItem items |}.
Proof.
  rewrite (list_loop
             (fun el =>
                {| summaryTitle := orElse (Some (text (find ".item-title" [el]))) "";
                   summaryUrl :=
                     match truthy (attr "href" (find ".item-title" [el])) with
                     | Some href => ("https://mto.to" ++ href)%string
                     | None => ""
                     end;
                   summaryCoverUrl :=
                     orElse (attr "src" (find ".item-cover img" [el])) "" |})).
  f_equal. apply map_ext. intros el. apply list_entry.
Qed.

(** The plugin's detail code computes the Detail rule. *)
Lemma detail_loop_rule (q : string -> MatchedSet) :
  each (children ".item" (q ".episode-list .main"))
    (fun _ el result =>
       {| title := title result; description := description result;
          coverUrl := coverUrl result;
          chapterList :=
            chapterList result ++
            [{| chapterTitle := orElse (Some (text (find ".chapt" [el]))) "";
                chapterUrl :=
                  match truthy (attr "href" (find ".chapt" [el])) with
                  | Some href => ("https://mto.to" ++ href)%string
                  | None => ""
                  end |}] |})
    {| title := orElse (Some (text (q ".item-title"))) "";
       description :=
         orElse (Some (text (q "#limit-height-body-summary .limit-html"))) "";
       coverUrl := orElse (attr "src" (children "img" (q ".attr-cover"))) "";
       chapterList := [] |}
  = Spec.detailRule q.
Proof.
  rewrite (chapter_loop
             (fun el =>
                {| chapterTitle := orElse (Some (text (find ".chapt" [el]))) "";
                   chapterUrl :=
                     match truthy (attr "href" (find ".chapt" [el])) with
                     | Some href => ("https://mto.to" ++ href)%string
                     | None => ""
                     end |})).
  unfold Spec.detailRule, Spec.episodes.
  rewrite !orElse_string, orElse_verbatim. f_equal.
  apply map_ext. intros el. apply chapter_entry.
Qed.

(** ** Running an operation against any host

    [run] unfolds an operation, splits on every answer of the host and
    rewrites the inline loops into the rules of the specification. *)

Ltac unfold_run :=
  cbv [Plugin.getMangaList Plugin.handleMangaListSearch Plugin.getMangaData
       Plugin.getChapterImageList Plugin.request Plugin.requestHeaders
       Plugin.pageParser Plugin.searchParser
       WithJQuery.getMangaList WithJQuery.handleMangaListSearch
       WithJQuery.getMangaData WithJQuery.getChapterImageList
       WithCheerio.getMangaList WithCheerio.handleMangaListSearch
       WithCheerio.getMangaData WithCheerio.getChapterImageList
       tryCatch bind lift emit ret httpRequest JSON_parse encodeURIComponent
       parseDocument callNewFunction endWithResult endWithException appToast
       events settled].

Ltac fold_rules :=
  cbn [title description coverUrl chapterList];
  rewrite ?list_loop_rule, ?script_loop;
  repeat match goal with
    | H : htmlParser _ _ _ = Normal ?d |- _ =>
        first [ rewrite (detail_loop_rule (fun s => find s d))
              | rewrite (detail_loop_rule (fun s => selectAll s d)) ]
    end.

Ltac step :=
  match goal with
  | |- context [truthy ?k] => destruct (truthy k) eqn:?
  | |- context [uriEncoder ?h ?r] => destruct (uriEncoder h r) eqn:?
  | |- context [network ?h ?r] => destruct (network h r) eqn:?
  | |- context [le ?p (Int 1)] => destruct (le p (Int 1)) eqn:?
  | |- context [jsonParser ?h ?r] => destruct (jsonParser h r) eqn:?
  | |- context [get ?v ?k] => destruct (get v k) eqn:?
  | |- context [htmlParser ?h ?a ?r] => destruct (htmlParser h a r) eqn:?
  | |- context [scriptEngine ?h ?r] => destruct (scriptEngine h r) eqn:?
  | |- context [arrayMap ?v ?n ?f] => destruct (arrayMap v n f) eqn:?
  end; cbv beta iota zeta.

Ltac run := unfold_run; repeat step; cbn [app fst snd]; fold_rules.

(** Closes a goal whose hypothesis [H] finds an event in a log that has none
    of its kind; leaves the cases where the event is there. *)
Ltac no_such_event H :=
  cbn [In] in H; repeat (destruct H as [H|H]; try discriminate H); try contradiction.

Ltac parsed_here :=
  eexists; split; [do 2 eexists; split; [cbn [In]; eauto 6|eassumption]|].

(** What the list operation emits is the List-item rule applied to a
    document the parser returned. *)
Lemma emitted_list v host rawPage rawPageSize keyword rawFilterOptions r :
  In (EndWithResult r)
     (events (Plugin.getMangaList v host rawPage rawPageSize keyword rawFilterOptions)) ->
  exists doc,
    Spec.parsedTo host
      (events (Plugin.getMangaList v host rawPage rawPageSize keyword rawFilterOptions))
      doc /\
    r = MangaList (Spec.listRule (Plugin.query v doc)).
Proof.
  unfold Spec.parsedTo.
  destruct v; run; intros H; no_such_event H.
  all: injection H as <-.
  all: parsed_here; reflexivity.
Qed.

(** What the detail operation emits is the Detail rule applied to a document
    the parser returned. *)
Lemma emitted_detail v host dataPageUrl r :
  In (EndWithResult r) (events (Plugin.getMangaData v host dataPageUrl)) ->
  exists doc,
    Spec.parsedTo host (events (Plugin.getMangaData v host dataPageUrl)) doc /\
    r = MangaData (Spec.detailRule (Plugin.query v doc)).
Proof.
  unfold Spec.parsedTo.
  destruct v; run; intros H; no_such_event H.
  all: injection H as <-.
  all: parsed_here; reflexivity.
Qed.

(** ** C1: the absolute-URL rewrite *)

Lemma list_rule_policy (q : string -> MatchedSet) :
  Forall2
    (fun el entry =>
       Spec.hrefPolicy (attr "href" (find ".item-title" [el])) (summaryUrl entry) /\
       Spec.srcPolicy (attr "src" (find ".item-cover img" [el])) (summaryCoverUrl entry))
    (Spec.listItems q) (IGetMangaListResult.list (Spec.listRule q)).
Proof.
  unfold Spec.listRule. cbn [IGetMangaListResult.list].
  induction (Spec.listItems q) as [|el rest IH]; cbn [map]; constructor.
  - split; [apply absolute_policy|apply verbatim_policy].
  - exact IH.
Qed.

Lemma detail_rule_policy (q : string -> MatchedSet) :
  Forall2
    (fun el chapter =>
       Spec.hrefPolicy (attr "href" (find ".chapt" [el])) (chapterUrl chapter))
    (Spec.episodes q) (chapterList (Spec.detailRule q)).
Proof.
  unfold Spec.detailRule. cbn [chapterList].
  induction (Spec.episodes q) as [|el rest IH]; cbn [map]; constructor.
  - apply absolute_policy.
  - exact IH.
Qed.

(** C1.  Every url that comes from an [href] attribute (the url of a list
    item, in the listing and in search results, and the url of a chapter) is
    ["https://mto.to"] followed by the href when the href is not empty, and
    the empty string when the href is absent or empty; every [coverUrl],
    which comes from a [src] attribute, is that attribute unchanged, and the
    empty string when it is absent.  This holds of whatever result either
    variant emits, item by item against the nodes the rule matched. *)
Theorem C1_href_absolute_src_verbatim (v : Plugin.Variant) (host : Host) :
  (forall rawPage rawPageSize keyword rawFilterOptions r,
     In (EndWithResult (MangaList r))
        (events (Plugin.getMangaList v host rawPage rawPageSize keyword rawFilterOptions)) ->
     exists doc,
       Spec.parsedTo host
         (events (Plugin.getMangaList v host rawPage rawPageSize keyword rawFilterOptions))
         doc /\
       Forall2
         (fun el entry =>
            Spec.hrefPolicy (attr "href" (find ".item-title" [el])) (summaryUrl entry) /\
            Spec.srcPolicy (attr "src" (find ".item-cover img" [el]))
              (summaryCoverUrl entry))
         (Spec.listItems (Plugin.query v doc)) (IGetMangaListResult.list r)) /\
  (forall dataPageUrl r,
     In (EndWithResult (MangaData r)) (events (Plugin.getMangaData v host dataPageUrl)) ->
     exists doc,
       Spec.parsedTo host (events (Plugin.getMangaData v host dataPageUrl)) doc /\
       Spec.srcPolicy (attr "src" (children "img" (Plugin.query v doc ".attr-cover")))
         (coverUrl r) /\
       Forall2
         (fun el chapter =>
            Spec.hrefPolicy (attr "href" (find ".chapt" [el])) (chapterUrl chapter))
         (Spec.episodes (Plugin.query v doc)) (chapterList r)).
Proof.
  split.
  - intros rawPage rawPageSize keyword rawFilterOptions r H.
    destruct (emitted_list _ _ _ _ _ _ _ H) as (doc & Hdoc & Hr).
    injection Hr as ->.
    exists doc. split; [exact Hdoc|apply list_rule_policy].
  - intros dataPageUrl r H.
    destruct (emitted_detail _ _ _ _ H) as (doc & Hdoc & Hr).
    injection Hr as ->.
    exists doc. split; [exact Hdoc|]. split.
    + apply verbatim_policy.
    + apply detail_rule_policy.
Qed.

Ltac event_is_there := vm_compute; repeat (try (left; reflexivity); right).

Lemma C1_witness :
  exists doc,
    Spec.parsedTo Demo.host
      (events (Plugin.getMangaList Plugin.jQuery Demo.host "1" "20" None None)) doc /\
    Forall2
      (fun el entry =>
         Spec.hrefPolicy (attr "href" (find ".item-title" [el])) (summaryUrl entry) /\
         Spec.srcPolicy (attr "src" (find ".item-cover img" [el]))
           (summaryCoverUrl entry))
      (Spec.listItems (Plugin.query Plugin.jQuery doc))
      [ {| summaryTitle := "Goodbye Isekai Tensei";
           summaryUrl := "https://mto.to/series/68765/goodbye-isekai-tensei";
           summaryCoverUrl := "https://static.example/68765.jpg" |};
        {| summaryTitle := ""; summaryUrl := ""; summaryCoverUrl := "" |};
        {| summaryTitle := "Untitled"; summaryUrl := ""; summaryCoverUrl := "" |} ].
Proof.
  apply (proj1 (C1_href_absolute_src_verbatim Plugin.jQuery Demo.host)
           "1" "20" None None
           {| IGetMangaListResult.list :=
                [ {| summaryTitle := "Goodbye Isekai Tensei";
                     summaryUrl := "https://mto.to/series/68765/goodbye-isekai-tensei";
                     summaryCoverUrl := "https://static.example/68765.jpg" |};
                  {| summaryTitle := ""; summaryUrl := ""; summaryCoverUrl := "" |};
                  {| summaryTitle := "Untitled"; summaryUrl := "";
                     summaryCoverUrl := "" |} ] |}).
  event_is_there.
Defined.

(** ** C2: the listing, first page and later pages *)

(** Unfolds the run and names the page number [z]. *)
Ltac with_page rawPage z :=
  let Hz := fresh "Hpage" in
  destruct (parseIntSafe_number rawPage 1) as [z Hz];
  unfold_run;
  change WithCheerio.parseIntSafe with WithJQuery.parseIntSafe;
  rewrite ?Hz, ?gt_le_int;
  change (("https://mto.to/latest" ++ "?page=") ++ toString (Int z))%string
    with ("https://mto.to/latest?page=" ++ toString (Int z))%string.

Ltac settle :=
  intros;
  repeat match goal with
    | H : Normal _ = Normal _ |- _ => injection H as H; subst
    | H : Throw _ = Normal _ |- _ => discriminate H
    | H : Normal _ = Throw _ |- _ => discriminate H
    | H : _ \/ False |- _ => destruct H as [H|[]]; subst
    | H : False |- _ => destruct H
    end;
  try congruence; eauto 8.

(** C2.  The list operation without a keyword (absent or empty).  When the
    page is at most 1, the one request goes to [https://mto.to/latest],
    [JSON.parse] is never called and the parser receives the raw body.  When
    the page is greater than 1, the one request goes to
    [https://mto.to/latest?page=N]; the raw body is handed to [JSON.parse],
    and whatever reaches the parser is the [res.html] of the decoded
    envelope, which does reach it as soon as the decoding succeeds. *)
Theorem C2_listing_fetch_and_parse (v : Plugin.Variant) (host : Host)
    (rawPage rawPageSize : string) (keyword rawFilterOptions : option string) :
  truthy keyword = None ->
  let page := WithJQuery.parseIntSafe rawPage (Int 1) in
  let log :=
    events (Plugin.getMangaList v host rawPage rawPageSize keyword rawFilterOptions) in
  (le page (Int 1) = true ->
   requested log = ["https://mto.to/latest"%string] /\
   decoded log = [] /\
   forall rawStr,
     network host (Plugin.request v "https://mto.to/latest") = Normal rawStr ->
     parsed log = [Str rawStr]) /\
  (gt page (Int 1) = true ->
   let url := ("https://mto.to/latest?page=" ++ toString page)%string in
   requested log = [url] /\
   forall rawStr,
     network host (Plugin.request v url) = Normal rawStr ->
     decoded log = [rawStr] /\
     (forall input, In input (parsed log) ->
        exists response res,
          jsonParser host rawStr = Normal response /\
          get response "res" = Normal res /\
          get res "html" = Normal input) /\
     (forall response res html,
        jsonParser host rawStr = Normal response ->
        get response "res" = Normal res ->
        get res "html" = Normal html ->
        parsed log = [html])).
Proof.
  intros Hkw page log. subst page log.
  destruct v; with_page rawPage z; rewrite Hkw; cbv beta iota zeta.
  all: split; intros Hle.
  all: try (rewrite Hle; cbn [negb]).
  all: try (destruct (le (Int z) (Int 1)) eqn:Hle'; [discriminate|]; cbn [negb]).
  all: repeat step; cbn; repeat split; try reflexivity; settle.
Qed.

Lemma C2_witness :
  requested (events (Plugin.getMangaList Plugin.cheerio Demo.host "2" "20" None None))
  = ["https://mto.to/latest?page=2"%string] /\
  decoded (events (Plugin.getMangaList Plugin.cheerio Demo.host "2" "20" None None))
  = [Demo.envelopeText] /\
  parsed (events (Plugin.getMangaList Plugin.cheerio Demo.host "2" "20" None None))
  = [Str "<div id='mainer'>2</div>"].
Proof.
  destruct (C2_listing_fetch_and_parse Plugin.cheerio Demo.host "2" "20" None None
              eq_refl) as [_ Hmore].
  destruct (Hmore eq_refl) as [Hrequested Hbody].
  destruct (Hbody Demo.envelopeText eq_refl) as (Hdecoded & _ & Hparsed).
  split; [exact Hrequested|]. split; [exact Hdecoded|].
  exact (Hparsed Demo.envelope
           (Obj [("html", Str "<div id='mainer'>2</div>"); ("more", Boolean true)])
           (Str "<div id='mainer'>2</div>") eq_refl eq_refl eq_refl).
Defined.

(** ** C4: a keyword sends the list operation to search *)

Ltac project :=
  cbn [app fst snd requested decoded parsed evaluated results exceptions
       withoutToasts flat_map filter Datatypes.length Spec.channelUses].

(** Two answers of the host to the same call are the same answer. *)
Ltac same_answers :=
  repeat match goal with
    | H1 : ?x = Normal ?a, H2 : ?x = Normal ?b |- _ =>
        rewrite H1 in H2; injection H2 as H2; subst
    end.

(** C4.  With a keyword that is not empty the list operation is the search
    sub-pipeline and nothing else: apart from the toast its calls are those
    of [handleMangaListSearch] on the parsed page and the keyword, and it
    settles as that call does.  The one request goes to
    [https://mto.to/search?word=<encoded keyword>&page=<page>] (no request
    is made when the keyword cannot be encoded), [JSON.parse] is never
    called, the parser receives the raw body, the result is the List-item
    rule applied to the parsed document, and neither the page size nor the
    filter options change anything. *)
Theorem C4_keyword_delegates_to_search (v : Plugin.Variant) (host : Host)
    (rawPage rawPageSize keyword : string) (rawFilterOptions : option string) :
  keyword <> ""%string ->
  let page := WithJQuery.parseIntSafe rawPage (Int 1) in
  let run := Plugin.getMangaList v host rawPage rawPageSize (Some keyword) rawFilterOptions in
  (withoutToasts (events run) = events (Plugin.handleMangaListSearch v host page keyword) /\
   settled run = settled (Plugin.handleMangaListSearch v host page keyword)) /\
  (forall word,
     uriEncoder host keyword = Normal word ->
     let url :=
       ("https://mto.to/search?word=" ++ word ++ "&page=" ++ toString page)%string in
     requested (events run) = [url] /\
     forall rawStr,
       network host (Plugin.request v url) = Normal rawStr ->
       parsed (events run) = [Str rawStr] /\
       forall doc,
         htmlParser host (Plugin.searchParser v) (Str rawStr) = Normal doc ->
         results (events run) = [MangaList (Spec.listRule (Plugin.query v doc))]) /\
  (forall e, uriEncoder host keyword = Throw e -> requested (events run) = []) /\
  decoded (events run) = [] /\
  (forall otherPageSize otherFilterOptions,
     Plugin.getMangaList v host rawPage otherPageSize (Some keyword) otherFilterOptions
     = run).
Proof.
  intros Hkw page run. subst page run.
  assert (Htruthy : truthy (Some keyword) = Some keyword).
  { unfold truthy. now destruct (String.eqb_spec keyword ""). }
  destruct v; with_page rawPage z; rewrite Htruthy; cbv beta iota zeta.
  all: repeat step; cbn [app fst snd]; fold_rules; project.
  all: repeat split; try reflexivity; settle.
  all: same_answers; reflexivity.
Qed.

Lemma C4_witness :
  requested
    (events (Plugin.getMangaList Plugin.jQuery Demo.host "abc" "20" (Some "one piece") None))
  = ["https://mto.to/search?word=one%20piece&page=1"%string] /\
  results
    (events (Plugin.getMangaList Plugin.jQuery Demo.host "abc" "20" (Some "one piece") None))
  = [MangaList
       {| IGetMangaListResult.list :=
            [ {| summaryTitle := "One Piece";
                 summaryUrl := "https://mto.to/series/12/one-piece";
                 summaryCoverUrl := "https://static.example/12.jpg" |} ] |}].
Proof.
  assert (Hkw : "one piece"%string <> ""%string) by discriminate.
  destruct (C4_keyword_delegates_to_search Plugin.jQuery Demo.host "abc" "20"
              "one piece" None Hkw) as (_ & Hsearch & _).
  destruct (Hsearch "one%20piece"%string eq_refl) as [Hrequested Hbody].
  split; [exact Hrequested|].
  destruct (Hbody "<div id='mainer'>one piece</div>"%string eq_refl) as [_ Hresult].
  exact (Hresult Demo.searchPage eq_refl).
Defined.

(** ** C5: a page that does not parse *)

Lemma toast_first {A : Type} (message : string) (rest : M A) :
  withoutToasts (events (bind (appToast message) (fun _ => rest)))
  = withoutToasts (events rest) /\
  settled (bind (appToast message) (fun _ => rest)) = settled rest.
Proof.
  unfold bind, appToast, emit, events, settled.
  destruct rest as [log [a|e]]; cbn; now split.
Qed.

(** Apart from the toast, the list operation depends on the page argument
    through the parsed page only. *)
Lemma getMangaList_by_page v host rawPage rawPage' rawPageSize keyword rawFilterOptions :
  WithJQuery.parseIntSafe rawPage (Int 1) = WithJQuery.parseIntSafe rawPage' (Int 1) ->
  withoutToasts
    (events (Plugin.getMangaList v host rawPage rawPageSize keyword rawFilterOptions))
  = withoutToasts
      (events (Plugin.getMangaList v host rawPage' rawPageSize keyword rawFilterOptions)) /\
  settled (Plugin.getMangaList v host rawPage rawPageSize keyword rawFilterOptions)
  = settled (Plugin.getMangaList v host rawPage' rawPageSize keyword rawFilterOptions).
Proof.
  intros Hpage. destruct v; cbn [Plugin.getMangaList].
  - unfold WithJQuery.getMangaList. rewrite Hpage.
    set (rest := match truthy keyword with Some k => _ | None => _ end).
    destruct (toast_first
                ("Request page " ++ rawPage ++ ", keyword: " ++ template keyword) rest)
      as [-> ->].
    destruct (toast_first
                ("Request page " ++ rawPage' ++ ", keyword: " ++ template keyword) rest)
      as [-> ->].
    now split.
  - unfold WithCheerio.getMangaList.
    change WithCheerio.parseIntSafe with WithJQuery.parseIntSafe.
    rewrite Hpage. now split.
Qed.

(** C5.  A page argument that [parseInt] cannot read (the empty string and
    ["abc"] are such arguments) gives the page 1: the list operation then
    makes the calls, toasts apart, and settles exactly as it does for the
    page argument ["1"].  Reading the page never fails: whatever the
    argument, the page is a number. *)
Theorem C5_unparsable_page_is_page_1 :
  parseInt "" = NaN /\
  parseInt "abc" = NaN /\
  (forall rawPage, exists z, WithJQuery.parseIntSafe rawPage (Int 1) = Int z) /\
  (forall rawPage,
     parseInt rawPage = NaN ->
     WithJQuery.parseIntSafe rawPage (Int 1) = Int 1 /\
     forall v host rawPageSize keyword rawFilterOptions,
       withoutToasts
         (events (Plugin.getMangaList v host rawPage rawPageSize keyword rawFilterOptions))
       = withoutToasts
           (events (Plugin.getMangaList v host "1" rawPageSize keyword rawFilterOptions)) /\
       settled (Plugin.getMangaList v host rawPage rawPageSize keyword rawFilterOptions)
       = settled (Plugin.getMangaList v host "1" rawPageSize keyword rawFilterOptions)).
Proof.
  split; [reflexivity|]. split; [reflexivity|]. split.
  - intros rawPage. apply parseIntSafe_number.
  - intros rawPage Hnan.
    pose proof (parseIntSafe_fallback rawPage (Int 1) Hnan) as Hpage.
    split; [exact Hpage|].
    intros v host rawPageSize keyword rawFilterOptions.
    apply getMangaList_by_page. now rewrite Hpage.
Qed.

Lemma C5_witness :
  WithJQuery.parseIntSafe "abc" (Int 1) = Int 1 /\
  requested (events (Plugin.getMangaList Plugin.jQuery Demo.host "abc" "20" None None))
  = ["https://mto.to/latest"%string].
Proof.
  destruct C5_unparsable_page_is_page_1 as (_ & Habc & _ & Hdefault).
  destruct (Hdefault "abc"%string Habc) as [Hpage _].
  split; [exact Hpage|]. reflexivity.
Defined.

(** ** C6: the image list *)

Lemma nth_error_chapterImage urls i u :
  nth_error urls i = Some u ->
  nth_error (map Spec.chapterImage (map Str urls)) i
  = Some {| imageUrl := Str u; width := 1; height := 1 |}.
Proof.
  intros H. rewrite map_map.
  rewrite (map_nth_error (fun x => Spec.chapterImage (Str x)) i urls H).
  reflexivity.
Qed.

(** C6.  When the page is fetched and parsed and the script evaluates to an
    array of [n] url strings, the images operation emits one result and no
    exception: [n] records in the order of the array, the [i]-th with the
    [i]-th string as its url and with width and height 1. *)
Theorem C6_images_in_order (v : Plugin.Variant) (host : Host)
    (chapterUrl rawStr : string) (doc : list Node) (urls : list string) :
  network host (Plugin.request v chapterUrl) = Normal rawStr ->
  htmlParser host (Plugin.pageParser v) (Str rawStr) = Normal doc ->
  scriptEngine host
    (Spec.lastLongest (Spec.scriptTexts (Plugin.query v doc)) ++ ";return imgHttps;")
  = Normal (Arr (map Str urls)) ->
  exists images,
    results (events (Plugin.getChapterImageList v host chapterUrl))
    = [ChapterImages images] /\
    exceptions (events (Plugin.getChapterImageList v host chapterUrl)) = [] /\
    settled (Plugin.getChapterImageList v host chapterUrl) = Normal tt /\
    length images = length urls /\
    forall i u,
      nth_error urls i = Some u ->
      nth_error images i = Some {| imageUrl := Str u; width := 1; height := 1 |}.
Proof.
  intros Hfetch Hparse Heval.
  exists (map Spec.chapterImage (map Str urls)).
  assert (Hshape :
            Plugin.getChapterImageList v host chapterUrl
            = ([HttpRequest (Plugin.request v chapterUrl);
                HtmlParse (Plugin.pageParser v) (Str rawStr);
                NewFunction
                  (Spec.lastLongest (Spec.scriptTexts (Plugin.query v doc))
                   ++ ";return imgHttps;");
                EndWithResult (ChapterImages (map Spec.chapterImage (map Str urls)))],
               Normal tt)).
  { revert Hfetch Hparse Heval. unfold Spec.scriptTexts.
    destruct v; cbn [Plugin.query]; unfold_run; intros Hfetch Hparse Heval.
    all: rewrite Hfetch; cbv beta iota zeta.
    all: rewrite Hparse; cbv beta iota zeta.
    all: rewrite script_loop, Heval; reflexivity. }
  rewrite Hshape. cbn [events settled fst snd]. project.
  repeat split.
  - now rewrite !length_map.
  - apply nth_error_chapterImage.
Qed.

Lemma C6_witness :
  exists images,
    results (events (Plugin.getChapterImageList Plugin.cheerio Demo.host
                       "https://mto.to/chapter/1"))
    = [ChapterImages images] /\
    exceptions (events (Plugin.getChapterImageList Plugin.cheerio Demo.host
                          "https://mto.to/chapter/1")) = [] /\
    settled (Plugin.getChapterImageList Plugin.cheerio Demo.host
               "https://mto.to/chapter/1") = Normal tt /\
    length images = 2%nat /\
    forall i u,
      nth_error ["u1"; "u2"]%string i = Some u ->
      nth_error images i = Some {| imageUrl := Str u; width := 1; height := 1 |}.
Proof.
  exact (C6_images_in_order Plugin.cheerio Demo.host "https://mto.to/chapter/1"
           "<div id='viewer'>chapter</div>" Demo.chapterPage ["u1"; "u2"]%string
           eq_refl eq_refl eq_refl).
Defined.

(** ** Queries and document order *)

Lemma Node_forall_ind (P : Node -> Prop) :
  (forall data, P (Text data)) ->
  (forall tagName attributes kids, Forall P kids -> P (Element tagName attributes kids)) ->
  forall n, P n.
Proof.
  intros Htext Helement. fix IH 1. intros [tagName attributes kids|data].
  - apply Helement. induction kids as [|k kids IHkids]; constructor.
    + apply IH.
    + exact IHkids.
  - apply Htext.
Qed.

Lemma flat_map_flat_map {A B C : Type} (f : B -> list C) (g : A -> list B) xs :
  flat_map f (flat_map g xs) = flat_map (fun x => flat_map f (g x)) xs.
Proof.
  induction xs as [|x xs IH]; cbn; [reflexivity|].
  now rewrite flat_map_app, IH.
Qed.


Lemma flat_map_ext_Forall {A B : Type} (f g : A -> list B) xs :
  Forall (fun x => f x = g x) xs -> flat_map f xs = flat_map g xs.
Proof.
  induction 1 as [|x xs Hx _ IH]; cbn; [reflexivity|]. now rewrite Hx, IH.
Qed.

Lemma flat_map_nil_Forall {A B : Type} (f : A -> list B) xs :
  flat_map f xs = [] -> Forall (fun x => f x = []) xs.
Proof.
  induction xs as [|x xs IH]; cbn; [constructor|].
  intros [Hx Hxs]%app_eq_nil. constructor; auto.
Qed.

Lemma flat_map_singletons {A : Type} (p : A -> bool) xs :
  flat_map (fun x => if p x then [x] else []) xs = filter p xs.
Proof.
  induction xs as [|x xs IH]; cbn; [reflexivity|].
  rewrite IH. now destruct (p x).
Qed.

(** A variant's query is the selection over the forest it searches. *)
Lemma query_forest v document selector :
  Plugin.query v document selector
  = flat_map (select (parseSelector selector)) (Order.forest v document).
Proof.
  destruct v; cbn [Plugin.query Order.forest]; [|reflexivity].
  unfold find, selectAll. now rewrite flat_map_flat_map.
Qed.



Lemma children_item containers :
  children ".item" containers
  = flat_map (fun c => filter (matches (ByClass "item")) (childNodesOf c)) containers.
Proof. reflexivity. Qed.

(** Below a node with no [#series-list], the only item there can be is the
    node itself. *)
Lemma itemsBelow_no_container n :
  forall inContainer,
    select [ById "series-list"] n = [] ->
    Order.itemsBelow inContainer n
    = if inContainer && matches (ByClass "item") n then [n] else [].
Proof.
  induction n as [data|tagName attributes kids IH] using Node_forall_ind;
    intros inContainer Hnone.
  - cbn. now rewrite andb_false_r.
  - cbn [select] in Hnone. cbn [Order.itemsBelow].
    apply app_eq_nil in Hnone as [Hself Hkids].
    destruct (matches (ById "series-list") (Element tagName attributes kids));
      [discriminate Hself|].
    apply flat_map_nil_Forall in Hkids.
    assert (Hnil : flat_map (Order.itemsBelow false) kids = []).
    { clear Hself. induction kids as [|k kids IHkids]; [reflexivity|].
      inversion IH as [|? ? Hk Hrest]; inversion Hkids as [|? ? Hk' Hrest']; subst.
      cbn [flat_map]. rewrite (Hk false Hk'), (IHkids Hrest Hrest'). reflexivity. }
    rewrite Hnil. apply app_nil_r.
Qed.

(** Where no [#series-list] has another one inside it, the items in document
    order are the item children of the containers, container after
    container. *)
Lemma itemsBelow_not_nested n :
  (forall c, In c (select [ById "series-list"] n) ->
             flat_map (select [ById "series-list"]) (childNodesOf c) = []) ->
  Order.itemsBelow false n
  = flat_map (fun c => filter (matches (ByClass "item")) (childNodesOf c))
      (select [ById "series-list"] n).
Proof.
  induction n as [data|tagName attributes kids IH] using Node_forall_ind;
    intros Hflat; [reflexivity|].
  cbn [select Order.itemsBelow andb app] in Hflat |- *.
  destruct (matches (ById "series-list") (Element tagName attributes kids)) eqn:Hself.
  - pose proof (Hflat _ (or_introl eq_refl)) as Hnone. cbn [childNodesOf] in Hnone.
    rewrite Hnone. cbn [app flat_map childNodesOf]. rewrite app_nil_r.
    rewrite <- flat_map_singletons. apply flat_map_ext_Forall.
    apply flat_map_nil_Forall in Hnone.
    eapply Forall_impl; [|exact Hnone]. cbn beta. intros k Hk.
    now rewrite (itemsBelow_no_container k true Hk).
  - cbn [app] in Hflat |- *. rewrite flat_map_flat_map.
    apply flat_map_ext_Forall.
    rewrite Forall_forall in IH |- *. intros k Hk. apply (IH k Hk).
    intros c Hc. apply Hflat. apply in_flat_map. now exists k.
Qed.

(** Document order of the emitted items when the containers are not
    nested. *)
Lemma items_in_document_order v document :
  Forall (fun c => find "#series-list" [c] = [])
    (Plugin.query v document "#series-list") ->
  children ".item" (Plugin.query v document "#series-list")
  = Order.itemsInDocumentOrder v document.
Proof.
  rewrite children_item, query_forest. unfold Order.itemsInDocumentOrder.
  change (parseSelector "#series-list") with [ById "series-list"].
  intros Hflat. rewrite flat_map_flat_map. apply flat_map_ext_Forall.
  rewrite Forall_forall in Hflat |- *. intros n Hn. symmetry.
  apply itemsBelow_not_nested. intros c Hc.
  assert (Hin : In c (flat_map (select [ById "series-list"]) (Order.forest v document))).
  { apply in_flat_map. now exists n. }
  specialize (Hflat c Hin). unfold find, selectAll in Hflat.
  cbn [flat_map] in Hflat. rewrite app_nil_r in Hflat. exact Hflat.
Qed.

(** ** C3: which script is evaluated *)







(** ** C7: a selector that matches nothing *)

Ltac parse_event H :=
  cbn [In] in H; repeat (destruct H as [H|H]; try discriminate H); try contradiction;
  injection H as ? ?; subst.

(** Once the parser has returned a document the list operation cannot fail
    any more: it emits the List-item rule's result and nothing else. *)
Lemma list_after_parse v host rawPage rawPageSize keyword rawFilterOptions doc :
  Spec.parsedTo host
    (events (Plugin.getMangaList v host rawPage rawPageSize keyword rawFilterOptions)) doc ->
  results (events (Plugin.getMangaList v host rawPage rawPageSize keyword rawFilterOptions))
  = [MangaList (Spec.listRule (Plugin.query v doc))] /\
  exceptions (events (Plugin.getMangaList v host rawPage rawPageSize keyword rawFilterOptions))
  = [] /\
  settled (Plugin.getMangaList v host rawPage rawPageSize keyword rawFilterOptions)
  = Normal tt.
Proof.
  unfold Spec.parsedTo.
  destruct v; run; project; intros (api & input & H & Hdoc); parse_event H.
  all: try congruence.
  all: same_answers; repeat split; reflexivity.
Qed.

Lemma detail_after_parse v host dataPageUrl doc :
  Spec.parsedTo host (events (Plugin.getMangaData v host dataPageUrl)) doc ->
  results (events (Plugin.getMangaData v host dataPageUrl))
  = [MangaData (Spec.detailRule (Plugin.query v doc))] /\
  exceptions (events (Plugin.getMangaData v host dataPageUrl)) = [] /\
  settled (Plugin.getMangaData v host dataPageUrl) = Normal tt.
Proof.
  unfold Spec.parsedTo.
  destruct v; run; project; intros (api & input & H & Hdoc); parse_event H.
  all: try congruence.
  all: same_answers; repeat split; reflexivity.
Qed.

Lemma list_item_miss el :
  (find ".item-title" [el] = [] ->
   summaryTitle (Spec.listItem el) = ""%string /\
   summaryUrl (Spec.listItem el) = ""%string) /\
  (find ".item-cover img" [el] = [] -> summaryCoverUrl (Spec.listItem el) = ""%string).
Proof.
  unfold Spec.listItem; cbn [summaryTitle summaryUrl summaryCoverUrl].
  split; intros ->; now cbn.
Qed.

Lemma chapter_miss el :
  find ".chapt" [el] = [] ->
  chapterTitle (Spec.chapterRef el) = ""%string /\
  chapterUrl (Spec.chapterRef el) = ""%string.
Proof.
  unfold Spec.chapterRef; cbn [chapterTitle chapterUrl].
  intros ->; now cbn.
Qed.

Lemma Forall2_map_rule {A B : Type} (f : A -> B) (P : A -> B -> Prop) xs :
  (forall x, P x (f x)) -> Forall2 P xs (map f xs).
Proof.
  intros H. induction xs as [|x xs IH]; cbn; constructor; auto.
Qed.

(** C7.  In the list operation (listing and search) and in the detail
    operation, once the page is parsed nothing fails: the run settles
    normally, emits one result and no exception, whatever the document
    holds.  A selector that matches no node leaves the field at its empty
    value: no [#series-list], or no [.item] child in it, gives the list
    [[]]; an item with no [.item-title] has title and url [""], one with no
    [.item-cover img] has coverUrl [""]; a detail page with no
    [.item-title], no summary, no cover or no episode list has title,
    description and coverUrl [""] and chapterList [[]], and an episode with
    no [.chapt] has title and url [""]. *)
Theorem C7_selector_miss_gives_default (v : Plugin.Variant) (host : Host) :
  (forall rawPage rawPageSize keyword rawFilterOptions doc,
     Spec.parsedTo host
       (events (Plugin.getMangaList v host rawPage rawPageSize keyword rawFilterOptions))
       doc ->
     settled (Plugin.getMangaList v host rawPage rawPageSize keyword rawFilterOptions)
     = Normal tt /\
     exceptions
       (events (Plugin.getMangaList v host rawPage rawPageSize keyword rawFilterOptions))
     = [] /\
     exists r,
       results
         (events (Plugin.getMangaList v host rawPage rawPageSize keyword rawFilterOptions))
       = [MangaList r] /\
       (Plugin.query v doc "#series-list" = [] -> IGetMangaListResult.list r = []) /\
       (children ".item" (Plugin.query v doc "#series-list") = [] ->
        IGetMangaListResult.list r = []) /\
       Forall2
         (fun el entry =>
            (find ".item-title" [el] = [] ->
             summaryTitle entry = ""%string /\ summaryUrl entry = ""%string) /\
            (find ".item-cover img" [el] = [] -> summaryCoverUrl entry = ""%string))
         (children ".item" (Plugin.query v doc "#series-list"))
         (IGetMangaListResult.list r)) /\
  (forall dataPageUrl doc,
     Spec.parsedTo host (events (Plugin.getMangaData v host dataPageUrl)) doc ->
     settled (Plugin.getMangaData v host dataPageUrl) = Normal tt /\
     exceptions (events (Plugin.getMangaData v host dataPageUrl)) = [] /\
     exists r,
       results (events (Plugin.getMangaData v host dataPageUrl)) = [MangaData r] /\
       (Plugin.query v doc ".item-title" = [] -> title r = ""%string) /\
       (Plugin.query v doc "#limit-height-body-summary .limit-html" = [] ->
        description r = ""%string) /\
       (Plugin.query v doc ".attr-cover" = [] -> coverUrl r = ""%string) /\
       (children "img" (Plugin.query v doc ".attr-cover") = [] ->
        coverUrl r = ""%string) /\
       (Plugin.query v doc ".episode-list .main" = [] -> chapterList r = []) /\
       (children ".item" (Plugin.query v doc ".episode-list .main") = [] ->
        chapterList r = []) /\
       Forall2
         (fun el chapter =>
            find ".chapt" [el] = [] ->
            chapterTitle chapter = ""%string /\ chapterUrl chapter = ""%string)
         (children ".item" (Plugin.query v doc ".episode-list .main"))
         (chapterList r)).
Proof.
  split.
  - intros rawPage rawPageSize keyword rawFilterOptions doc Hdoc.
    destruct (list_after_parse _ _ _ _ _ _ _ Hdoc) as (Hresults & Hnone & Hsettled).
    split; [exact Hsettled|]. split; [exact Hnone|].
    exists (Spec.listRule (Plugin.query v doc)). split; [exact Hresults|].
    unfold Spec.listRule, Spec.listItems; cbn [IGetMangaListResult.list].
    split; [|split].
    + intros ->. reflexivity.
    + intros ->. reflexivity.
    + apply Forall2_map_rule. intros el. apply list_item_miss.
  - intros dataPageUrl doc Hdoc.
    destruct (detail_after_parse _ _ _ _ Hdoc) as (Hresults & Hnone & Hsettled).
    split; [exact Hsettled|]. split; [exact Hnone|].
    exists (Spec.detailRule (Plugin.query v doc)). split; [exact Hresults|].
    unfold Spec.detailRule, Spec.episodes;
      cbn [title description coverUrl chapterList].
    repeat split.
    + intros ->. reflexivity.
    + intros ->. reflexivity.
    + intros ->. reflexivity.
    + intros ->. reflexivity.
    + intros ->. reflexivity.
    + intros ->. reflexivity.
    + apply Forall2_map_rule. intros el. apply chapter_miss.
Qed.

Lemma C7_witness :
  settled (Plugin.getMangaData Plugin.cheerio Demo.host "https://mto.to/series/2")
  = Normal tt /\
  exceptions (events (Plugin.getMangaData Plugin.cheerio Demo.host
                        "https://mto.to/series/2")) = [] /\
  exists r,
    results (events (Plugin.getMangaData Plugin.cheerio Demo.host
                       "https://mto.to/series/2")) = [MangaData r] /\
    title r = ""%string /\ description r = ""%string /\ coverUrl r = ""%string /\
    chapterList r = [].
Proof.
  assert (Hdoc : Spec.parsedTo Demo.host
                   (events (Plugin.getMangaData Plugin.cheerio Demo.host
                              "https://mto.to/series/2"))
                   Demo.emptyPage).
  { exists cheerioLoad, (Str "<div id='mainer'>nothing here</div>").
    split; [event_is_there|reflexivity]. }
  destruct (proj2 (C7_selector_miss_gives_default Plugin.cheerio Demo.host)
              "https://mto.to/series/2"%string Demo.emptyPage Hdoc)
    as (Hsettled & Hnone & r & Hr & Htitle & Hdesc & Hcover & _ & Hmain & _).
  split; [exact Hsettled|]. split; [exact Hnone|].
  exists r. split; [exact Hr|].
  split; [exact (Htitle eq_refl)|]. split; [exact (Hdesc eq_refl)|].
  split; [exact (Hcover eq_refl)|]. exact (Hmain eq_refl).
Defined.

(** ** C10: one entry per matched item *)

(** C10, as the plugin does it.  Whatever list either variant emits, from
    the listing or from a search, has one entry per node that
    [#series-list]'s children with class [item] matched: the lengths agree,
    the [i]-th entry is the List-item rule's entry for the [i]-th node, and a
    node where neither [.item-title] nor [.item-cover img] matches still has
    its entry, with three empty strings.  The order is that of the matched
    set: the item children of the first matched [#series-list], in document
    order, then those of the next one, and so on.  That is the document
    order of the items whenever no matched [#series-list] has another one
    inside it. *)
Theorem C10_one_entry_per_item (v : Plugin.Variant) (host : Host)
    (rawPage rawPageSize : string) (keyword rawFilterOptions : option string)
    (r : IGetMangaListResult.t) :
  In (EndWithResult (MangaList r))
     (events (Plugin.getMangaList v host rawPage rawPageSize keyword rawFilterOptions)) ->
  exists doc,
    Spec.parsedTo host
      (events (Plugin.getMangaList v host rawPage rawPageSize keyword rawFilterOptions))
      doc /\
    length (IGetMangaListResult.list r)
    = length (children ".item" (Plugin.query v doc "#series-list")) /\
    (forall i el,
       nth_error (children ".item" (Plugin.query v doc "#series-list")) i = Some el ->
       nth_error (IGetMangaListResult.list r) i
       = Some {| summaryTitle := text (find ".item-title" [el]);
                 summaryUrl := Spec.absolute (attr "href" (find ".item-title" [el]));
                 summaryCoverUrl :=
                   Spec.verbatim (attr "src" (find ".item-cover img" [el])) |}) /\
    (forall i el,
       nth_error (children ".item" (Plugin.query v doc "#series-list")) i = Some el ->
       find ".item-title" [el] = [] ->
       find ".item-cover img" [el] = [] ->
       nth_error (IGetMangaListResult.list r) i
       = Some {| summaryTitle := ""; summaryUrl := ""; summaryCoverUrl := "" |}) /\
    IGetMangaListResult.list r
    = map Spec.listItem
        (flat_map
           (fun container =>
              filter (matches (ByClass "item")) (childNodesOf container))
           (Plugin.query v doc "#series-list")) /\
    (Forall (fun container => find "#series-list" [container] = [])
       (Plugin.query v doc "#series-list") ->
     IGetMangaListResult.list r
     = map Spec.listItem (Order.itemsInDocumentOrder v doc)).
Proof.
  intros H.
  destruct (emitted_list _ _ _ _ _ _ _ H) as (doc & Hdoc & Hr).
  injection Hr as ->.
  exists doc. split; [exact Hdoc|].
  unfold Spec.listRule, Spec.listItems; cbn [IGetMangaListResult.list].
  split; [apply length_map|]. split; [|split; [|split]].
  - intros i el Hel. now rewrite (map_nth_error Spec.listItem i _ Hel).
  - intros i el Hel Htitle Hcover.
    rewrite (map_nth_error Spec.listItem i _ Hel).
    unfold Spec.listItem. now rewrite Htitle, Hcover.
  - now rewrite children_item.
  - intros Hflat. now rewrite (items_in_document_order v doc Hflat).
Qed.

Lemma C10_witness :
  exists doc,
    Spec.parsedTo Demo.host
      (events (Plugin.getMangaList Plugin.cheerio Demo.host "1" "20" None None)) doc /\
    [ {| summaryTitle := "Goodbye Isekai Tensei";
         summaryUrl := "https://mto.to/series/68765/goodbye-isekai-tensei";
         summaryCoverUrl := "https://static.example/68765.jpg" |};
      {| summaryTitle := ""; summaryUrl := ""; summaryCoverUrl := "" |};
      {| summaryTitle := "Untitled"; summaryUrl := ""; summaryCoverUrl := "" |} ]
    = map Spec.listItem
        (flat_map
           (fun container =>
              filter (matches (ByClass "item")) (childNodesOf container))
           (Plugin.query Plugin.cheerio doc "#series-list")).
Proof.
  assert (Hemitted :
            In (EndWithResult
                  (MangaList
                     {| IGetMangaListResult.list :=
                          [ {| summaryTitle := "Goodbye Isekai Tensei";
                               summaryUrl :=
                                 "https://mto.to/series/68765/goodbye-isekai-tensei";
                               summaryCoverUrl := "https://static.example/68765.jpg" |};
                            {| summaryTitle := ""; summaryUrl := "";
                               summaryCoverUrl := "" |};
                            {| summaryTitle := "Untitled"; summaryUrl := "";
                               summaryCoverUrl := "" |} ] |}))
               (events (Plugin.getMangaList Plugin.cheerio Demo.host "1" "20" None None))).
  { event_is_there. }
  destruct (C10_one_entry_per_item Plugin.cheerio Demo.host "1" "20" None None _ Hemitted)
    as (doc & Hdoc & _ & _ & _ & Horder & _).
  exists doc. split; [exact Hdoc|exact Horder].
Defined.

(** C10 as it is worded fails.  On the listing of [Pages.host] a second
    [#series-list] sits inside item A of the first, with item B in it, and
    item C follows A: the document order of the items is A, B, C, and both
    variants emit A, C, B. *)
Lemma C10_counterexample_nested :
  results (events (Plugin.getMangaList Plugin.jQuery Pages.host "1" "20" None None))
  = [MangaList
       {| IGetMangaListResult.list :=
            [ {| summaryTitle := "AB"; summaryUrl := "https://mto.to/series/a";
                 summaryCoverUrl := "" |};
              {| summaryTitle := "C"; summaryUrl := "https://mto.to/series/c";
                 summaryCoverUrl := "" |};
              {| summaryTitle := "B"; summaryUrl := "https://mto.to/series/b";
                 summaryCoverUrl := "" |} ] |}] /\
  results (events (Plugin.getMangaList Plugin.cheerio Pages.host "1" "20" None None))
  = results (events (Plugin.getMangaList Plugin.jQuery Pages.host "1" "20" None None)) /\
  Order.itemsInDocumentOrder Plugin.jQuery Pages.nestedPage
  = [Pages.itemA; Pages.itemB; Pages.itemC] /\
  Order.itemsInDocumentOrder Plugin.cheerio Pages.nestedPage
  = [Pages.itemA; Pages.itemB; Pages.itemC] /\
  map summaryUrl (map Spec.listItem [Pages.itemA; Pages.itemB; Pages.itemC])
  = ["https://mto.to/series/a"; "https://mto.to/series/b"; "https://mto.to/series/c"]%string /\
  results (events (Plugin.getMangaList Plugin.jQuery Pages.host "1" "20" None None))
  <> [MangaList
        {| IGetMangaListResult.list :=
             map Spec.listItem (Order.itemsInDocumentOrder Plugin.jQuery Pages.nestedPage) |}].
Proof.
  repeat split; try reflexivity.
  vm_compute. discriminate.
Qed.

(** ** C8: the two result channels *)

Lemma get_throws_error v key e : get v key = Throw e -> Spec.hasMessage e.
Proof.
  unfold get, TypeError, Spec.hasMessage.
  destruct v; try discriminate.
  - intros [= <-]. split; discriminate.
  - intros [= <-]. split; discriminate.
  - destruct (lookup key fields); discriminate.
  - destruct (String.eqb key "message"); [discriminate|].
    destruct (String.eqb key "name"); discriminate.
Qed.

Lemma arrayMap_throws_error {A : Type} v name (f : Value -> A) e :
  arrayMap v name f = Throw e -> Spec.hasMessage e.
Proof.
  unfold arrayMap, TypeError, Spec.hasMessage.
  destruct v; try discriminate; intros [= <-]; split; discriminate.
Qed.

Lemma message_read e e' : Spec.hasMessage e -> get e "message" = Throw e' -> False.
Proof.
  unfold Spec.hasMessage, get. intros [Hnull Hundef].
  destruct e; try discriminate; try congruence.
  destruct (lookup "message" fields); discriminate.
Qed.

(** Closes the branches where the handler could not read the message of a
    failure that has one. *)
Ltac message_was_read Hhost :=
  exfalso;
  destruct Hhost as (Hnet & Hjson & Huri & Hhtml & Hscript);
  match goal with
  | Hm : get ?e "message" = Throw _ |- _ =>
      apply (message_read e _) in Hm; [exact Hm|];
      first [ eapply Hnet; eassumption
            | eapply Hjson; eassumption
            | eapply Huri; eassumption
            | eapply Hhtml; eassumption
            | eapply Hscript; eassumption
            | eapply get_throws_error; eassumption
            | eapply arrayMap_throws_error; eassumption ]
  end.

(** Against a host whose failures all have a message, every operation of
    either variant uses exactly one of the two channels and resolves. *)
Lemma one_channel_when_failures_have_messages v host :
  Spec.failsWithMessages host ->
  (forall rawPage rawPageSize keyword rawFilterOptions,
     Spec.channelUses
       (events (Plugin.getMangaList v host rawPage rawPageSize keyword rawFilterOptions))
     = 1 /\
     settled (Plugin.getMangaList v host rawPage rawPageSize keyword rawFilterOptions)
     = Normal tt) /\
  (forall page keyword,
     Spec.channelUses (events (Plugin.handleMangaListSearch v host page keyword)) = 1 /\
     settled (Plugin.handleMangaListSearch v host page keyword) = Normal tt) /\
  (forall dataPageUrl,
     Spec.channelUses (events (Plugin.getMangaData v host dataPageUrl)) = 1 /\
     settled (Plugin.getMangaData v host dataPageUrl) = Normal tt) /\
  (forall chapterUrl,
     Spec.channelUses (events (Plugin.getChapterImageList v host chapterUrl)) = 1 /\
     settled (Plugin.getChapterImageList v host chapterUrl) = Normal tt).
Proof.
  intros Hhost. repeat split.
  all: destruct v; run; project.
  all: first [reflexivity | message_was_read Hhost].
Qed.

(** C8, where the plugin departs from it.  The chapter page
    [https://mto.to/chapter/3] has one inline script, [throw null].  The
    plugin evaluates it, the handler of the failure reads [.message] of
    [null], which throws in its turn, and the operation rejects having
    called neither [endWithResult] nor [endWithException]. *)
Theorem C8_thrown_null_reaches_no_channel :
  evaluated
    (events (Plugin.getChapterImageList Plugin.cheerio Demo.host "https://mto.to/chapter/3"))
  = ["throw null;return imgHttps;"%string] /\
  results
    (events (Plugin.getChapterImageList Plugin.cheerio Demo.host "https://mto.to/chapter/3"))
  = [] /\
  exceptions
    (events (Plugin.getChapterImageList Plugin.cheerio Demo.host "https://mto.to/chapter/3"))
  = [] /\
  Spec.channelUses
    (events (Plugin.getChapterImageList Plugin.cheerio Demo.host "https://mto.to/chapter/3"))
  = 0 /\
  settled (Plugin.getChapterImageList Plugin.cheerio Demo.host "https://mto.to/chapter/3")
  = Throw (TypeError "Cannot read properties of null (reading 'message')").
Proof.
  assert (Hrun :
            Plugin.getChapterImageList Plugin.cheerio Demo.host "https://mto.to/chapter/3"
            = ([HttpRequest (Plugin.request Plugin.cheerio "https://mto.to/chapter/3");
                HtmlParse cheerioLoad (Str "<div id='viewer'>throw null</div>");
                NewFunction "throw null;return imgHttps;"],
               Throw (TypeError "Cannot read properties of null (reading 'message')")))
    by reflexivity.
  rewrite Hrun. cbn [events settled fst snd]. project.
  repeat split.
Qed.

(** ** The order of a matched set *)

(** The children of one container come in the order of its child nodes, so
    with a single [#series-list] the items, and with them the entries of the
    result, are in document order. *)
Lemma children_of_one selector tagName attributes childNodes :
  children selector [Element tagName attributes childNodes]
  = filter
      (fun k =>
         match parseSelector selector with
         | [s] => matches s k
         | _ => false
         end)
      childNodes.
Proof.
  unfold children. cbn [flat_map childNodesOf]. apply app_nil_r.
Qed.

(** * Further properties of the operations *)

(** ** Vocabulary *)

Module Trace.
Import JS Dom Rulia.

(** A call to one of the two result channels. *)
Definition isSignal (e : Event) : bool :=
  match e with
  | EndWithResult _ => true
  | EndWithException _ => true
  | _ => false
  end.

(** A run that resolved made its one call to a channel last; a run that
    rejected made none. *)
Definition signalsLast {A : Type} (m : M A) : Prop :=
  match settled m with
  | Normal _ =>
      exists calls signal,
        events m = calls ++ [signal] /\
        isSignal signal = true /\
        Spec.channelUses calls = 0
  | Throw _ => Spec.channelUses (events m) = 0
  end.

(** A call of the log that the host answered by throwing [e]. *)
Definition failedWith (host : Host) (log : list Event) (e : Value) : Prop :=
  (exists request, In (HttpRequest request) log /\ network host request = Throw e) \/
  (exists text, In (JsonParse text) log /\ jsonParser host text = Throw e) \/
  (exists api input,
     In (HtmlParse api input) log /\ htmlParser host api input = Throw e) \/
  (exists body, In (NewFunction body) log /\ scriptEngine host body = Throw e).

Definition toasts (log : list Event) : list string :=
  flat_map (fun e => match e with AppToast m => [m] | _ => [] end) log.

(** The requests of a log, whole. *)
Definition requests (log : list Event) : list Request :=
  flat_map (fun e => match e with HttpRequest r => [r] | _ => [] end) log.

(** The calls to the HTML parser: entry point and input. *)
Definition parses (log : list Event) : list (ParserApi * Value) :=
  flat_map (fun e => match e with HtmlParse api v => [(api, v)] | _ => [] end) log.

End Trace.

(** ** The requests *)

(** X1.  The detail and the images operations make exactly one request,
    whatever the host answers: a GET of the url they are given, unchanged,
    with the variant's headers. *)
Theorem X1_detail_and_images_fetch_verbatim (v : Plugin.Variant) (host : Host)
    (address : string) :
  Trace.requests (events (Plugin.getMangaData v host address))
  = [Plugin.request v address] /\
  Trace.requests (events (Plugin.getChapterImageList v host address))
  = [Plugin.request v address].
Proof.
  split; destruct v; run; reflexivity.
Qed.

(** X2.  The list operation, keyword or not, makes at most one request; it is
    a GET with the variant's headers, and it goes to the listing or to the
    search page of the site and nowhere else. *)
Theorem X2_list_requests_stay_on_site (v : Plugin.Variant) (host : Host)
    (rawPage rawPageSize : string) (keyword rawFilterOptions : option string) :
  length
    (Trace.requests
       (events (Plugin.getMangaList v host rawPage rawPageSize keyword rawFilterOptions)))
  <= 1 /\
  forall request,
    In request
       (Trace.requests
          (events (Plugin.getMangaList v host rawPage rawPageSize keyword rawFilterOptions))) ->
    method request = "GET"%string /\
    headers request = Plugin.requestHeaders v /\
    ((exists rest, url request = "https://mto.to/latest" ++ rest)%string \/
     (exists rest, url request = "https://mto.to/search?word=" ++ rest)%string).
Proof.
  destruct v; with_page rawPage z; repeat step.
  all: cbn [app fst snd Trace.requests flat_map Datatypes.length In].
  all: split; [lia|].
  all: intros request Hin; repeat (destruct Hin as [Hin|Hin]); try contradiction.
  all: subst request; cbn [method headers url].
  all: repeat split; try reflexivity.
  all: first [ left; eexists; reflexivity
             | left; exists ""%string; reflexivity
             | right; eexists; reflexivity ].
Qed.

(** ** The two channels *)

Ltac split_last :=
  match goal with
  | |- exists calls signal, ?l = _ /\ _ =>
      exists (removelast l), (last l (AppToast ""));
      repeat split; reflexivity
  end.

(** X3.  Every operation, against every host, calls a result channel at most
    once, and that call is the last thing it does: a run that resolves ends
    with its one call to [endWithResult] or [endWithException]; a run that
    rejects has called neither. *)
Theorem X3_signal_is_last (v : Plugin.Variant) (host : Host) :
  (forall rawPage rawPageSize keyword rawFilterOptions,
     Trace.signalsLast
       (Plugin.getMangaList v host rawPage rawPageSize keyword rawFilterOptions)) /\
  (forall page keyword,
     Trace.signalsLast (Plugin.handleMangaListSearch v host page keyword)) /\
  (forall dataPageUrl, Trace.signalsLast (Plugin.getMangaData v host dataPageUrl)) /\
  (forall chapterUrl, Trace.signalsLast (Plugin.getChapterImageList v host chapterUrl)).
Proof.
  repeat split; intros; unfold Trace.signalsLast.
  all: destruct v; run.
  all: first [reflexivity | split_last].
Qed.

(** ** Failures *)

Lemma HttpRequest_inj a b : HttpRequest a = HttpRequest b -> a = b.
Proof. now intros [= ->]. Qed.

Lemma JsonParse_inj a b : JsonParse a = JsonParse b -> a = b.
Proof. now intros [= ->]. Qed.

Lemma HtmlParse_inj a b a' b' : HtmlParse a b = HtmlParse a' b' -> a = a' /\ b = b'.
Proof. now intros [= -> ->]. Qed.

Lemma NewFunction_inj a b : NewFunction a = NewFunction b -> a = b.
Proof. now intros [= ->]. Qed.

(** Finds in the log the call that [H] says has failed. *)
Ltac failed_call H :=
  destruct H as [(? & Hin & Hthrown)
                |[(? & Hin & Hthrown)
                 |[(? & ? & Hin & Hthrown)
                  |(? & Hin & Hthrown)]]];
  cbn [In] in Hin;
  repeat (destruct Hin as [Hin|Hin]);
  try discriminate Hin; try contradiction;
  first [ apply HttpRequest_inj in Hin
        | apply JsonParse_inj in Hin
        | apply HtmlParse_inj in Hin; destruct Hin as [? Hin]
        | apply NewFunction_inj in Hin ];
  subst.

Ltac reported :=
  split; intros;
  repeat match goal with
    | H1 : ?x = Throw ?a, H2 : ?x = Throw ?b |- _ =>
        rewrite H1 in H2; injection H2 as H2; subst
    | H1 : ?x = Normal ?a, H2 : ?x = Normal ?b |- _ =>
        rewrite H1 in H2; injection H2 as H2; subst
    end;
  try congruence; repeat split; try congruence.

(** X4.  When a call the operation made to the network, to [JSON.parse], to
    the HTML parser or to the script engine fails, the operation reports
    that failure's [message], as it is, through [endWithException], emits no
    result and resolves; when the message of the failure cannot be read
    (the failure is [null] or [undefined]) it rejects with the error of that
    reading and calls no channel. *)
Theorem X4_failure_message_is_reported (v : Plugin.Variant) (host : Host) (e : Value) :
  (forall rawPage rawPageSize keyword rawFilterOptions,
     Trace.failedWith host
       (events (Plugin.getMangaList v host rawPage rawPageSize keyword rawFilterOptions))
       e ->
     (forall message,
        get e "message" = Normal message ->
        exceptions
          (events (Plugin.getMangaList v host rawPage rawPageSize keyword rawFilterOptions))
        = [message] /\
        results
          (events (Plugin.getMangaList v host rawPage rawPageSize keyword rawFilterOptions))
        = [] /\
        settled (Plugin.getMangaList v host rawPage rawPageSize keyword rawFilterOptions)
        = Normal tt) /\
     (forall e',
        get e "message" = Throw e' ->
        Spec.channelUses
          (events (Plugin.getMangaList v host rawPage rawPageSize keyword rawFilterOptions))
        = 0 /\
        settled (Plugin.getMangaList v host rawPage rawPageSize keyword rawFilterOptions)
        = Throw e')) /\
  (forall dataPageUrl,
     Trace.failedWith host (events (Plugin.getMangaData v host dataPageUrl)) e ->
     (forall message,
        get e "message" = Normal message ->
        exceptions (events (Plugin.getMangaData v host dataPageUrl)) = [message] /\
        results (events (Plugin.getMangaData v host dataPageUrl)) = [] /\
        settled (Plugin.getMangaData v host dataPageUrl) = Normal tt) /\
     (forall e',
        get e "message" = Throw e' ->
        Spec.channelUses (events (Plugin.getMangaData v host dataPageUrl)) = 0 /\
        settled (Plugin.getMangaData v host dataPageUrl) = Throw e')) /\
  (forall chapterUrl,
     Trace.failedWith host (events (Plugin.getChapterImageList v host chapterUrl)) e ->
     (forall message,
        get e "message" = Normal message ->
        exceptions (events (Plugin.getChapterImageList v host chapterUrl)) = [message] /\
        results (events (Plugin.getChapterImageList v host chapterUrl)) = [] /\
        settled (Plugin.getChapterImageList v host chapterUrl) = Normal tt) /\
     (forall e',
        get e "message" = Throw e' ->
        Spec.channelUses (events (Plugin.getChapterImageList v host chapterUrl)) = 0 /\
        settled (Plugin.getChapterImageList v host chapterUrl) = Throw e')).
Proof.
  unfold Trace.failedWith.
  split; [|split]; intros *; destruct v; run; project; intros Hfailed.
  all: failed_call Hfailed; rewrite ?script_loop in *.
  all: reported.
Qed.

Lemma X4_witness :
  exceptions (events (Plugin.getMangaData Plugin.jQuery Demo.host "https://mto.to/series/404"))
  = [Str "Request failed with status 404"] /\
  results (events (Plugin.getMangaData Plugin.jQuery Demo.host "https://mto.to/series/404"))
  = [] /\
  settled (Plugin.getMangaData Plugin.jQuery Demo.host "https://mto.to/series/404")
  = Normal tt.
Proof.
  assert (Hfailed :
            Trace.failedWith Demo.host
              (events (Plugin.getMangaData Plugin.jQuery Demo.host
                         "https://mto.to/series/404"))
              (ErrorObject "Error" "Request failed with status 404")).
  { left. exists (Plugin.request Plugin.jQuery "https://mto.to/series/404").
    split; [event_is_there|reflexivity]. }
  destruct (X4_failure_message_is_reported Plugin.jQuery Demo.host
              (ErrorObject "Error" "Request failed with status 404"))
    as (_ & Hdetail & _).
  destruct (Hdetail "https://mto.to/series/404"%string Hfailed) as [Hreported _].
  exact (Hreported (Str "Request failed with status 404") eq_refl).
Defined.

(** ** More pages to run the plugin on *)

Module Cases.
Import JS Dom Rulia.
Local Open Scope string_scope.

(** Listing pages whose body is the JSON text [null] or [{}], and chapter
    pages whose script binds [imgHttps] to a string, to an array of values
    that are not strings, and to the empty array. *)
Definition bodies : list (string * string) :=
  [("https://mto.to/latest?page=3", "null");
   ("https://mto.to/latest?page=4", "{}");
   ("https://mto.to/chapter/5", "<div id='viewer'>string</div>");
   ("https://mto.to/chapter/6", "<div id='viewer'>values</div>");
   ("https://mto.to/chapter/7", "<div id='viewer'>empty</div>")].

Definition documents : list (string * list Node) :=
  [("<div id='viewer'>string</div>", Demo.scripts ["const imgHttps = 'one.jpg';"]);
   ("<div id='viewer'>values</div>", Demo.scripts ["const imgHttps = [1, null];"]);
   ("<div id='viewer'>empty</div>", Demo.scripts ["const imgHttps = [];"])].

Definition programs : list (string * Completion Value) :=
  [("const imgHttps = 'one.jpg';;return imgHttps;", Normal (Str "one.jpg"));
   ("const imgHttps = [1, null];;return imgHttps;", Normal (Arr [Num (Int 1); Null]));
   ("const imgHttps = [];;return imgHttps;", Normal (Arr []))].

(** This host's [encodeURIComponent] rejects every keyword, as the engine's
    does a keyword with a lone surrogate. *)
Definition host : Host :=
  {| network := fun request =>
       match lookup (url request) bodies with
       | Some body => Normal body
       | None => Throw (ErrorObject "Error" "Request failed with status 404")
       end;
     jsonParser := fun text =>
       if String.eqb text "null" then Normal Null
       else if String.eqb text "{}" then Normal (Obj [])
       else Throw (ErrorObject "SyntaxError" "Unexpected token < in JSON at position 0");
     uriEncoder := fun _ => Throw (ErrorObject "URIError" "URI malformed");
     htmlParser := fun _ input =>
       match input with
       | Str text =>
           match lookup text documents with
           | Some document => Normal document
           | None => Normal []
           end
       | _ => Normal []
       end;
     scriptEngine := fun body =>
       match lookup body programs with
       | Some answer => answer
       | None => Throw (ErrorObject "ReferenceError" "imgHttps is not defined")
       end |}.

End Cases.

(** ** Envelopes and script values of the wrong shape *)

(** X5.  A later page of the listing whose body decodes to a value with no
    [res.html] to read (the decoded value is [null] or [undefined], or its
    [res] is [null] or absent) ends with one exception and no result, and
    the HTML parser is never called. *)
Theorem X5_envelope_without_html (v : Plugin.Variant) (host : Host)
    (rawPage rawPageSize : string) (keyword rawFilterOptions : option string)
    (rawStr : string) (response : Value) :
  truthy keyword = None ->
  gt (WithJQuery.parseIntSafe rawPage (Int 1)) (Int 1) = true ->
  network host
    (Plugin.request v
       ("https://mto.to/latest?page=" ++ toString (WithJQuery.parseIntSafe rawPage (Int 1))))
  = Normal rawStr ->
  jsonParser host rawStr = Normal response ->
  response = Null \/ response = Undefined \/
  get response "res" = Normal Null \/ get response "res" = Normal Undefined ->
  exists message,
    exceptions
      (events (Plugin.getMangaList v host rawPage rawPageSize keyword rawFilterOptions))
    = [Str message] /\
    results
      (events (Plugin.getMangaList v host rawPage rawPageSize keyword rawFilterOptions))
    = [] /\
    parsed
      (events (Plugin.getMangaList v host rawPage rawPageSize keyword rawFilterOptions))
    = [] /\
    settled (Plugin.getMangaList v host rawPage rawPageSize keyword rawFilterOptions)
    = Normal tt.
Proof.
  intros Hkw Hgt Hfetch Hdecode Hshape. revert Hgt Hfetch.
  destruct v; with_page rawPage z; intros Hgt Hfetch.
  all: rewrite Hkw, Hgt; cbv beta iota zeta.
  all: destruct (le (Int z) (Int 1)) eqn:Hle; [discriminate Hgt|].
  all: rewrite Hfetch; cbv beta iota zeta.
  all: rewrite Hdecode; cbv beta iota zeta.
  all: destruct Hshape as [->|[->|[Hres|Hres]]]; try rewrite Hres.
  all: cbn; eexists; repeat split.
Qed.

Lemma X5_witness :
  exists message,
    exceptions (events (Plugin.getMangaList Plugin.cheerio Cases.host "4" "20" None None))
    = [Str message] /\
    results (events (Plugin.getMangaList Plugin.cheerio Cases.host "4" "20" None None))
    = [] /\
    parsed (events (Plugin.getMangaList Plugin.cheerio Cases.host "4" "20" None None))
    = [] /\
    settled (Plugin.getMangaList Plugin.cheerio Cases.host "4" "20" None None)
    = Normal tt.
Proof.
  apply (X5_envelope_without_html Plugin.cheerio Cases.host "4" "20" None None
           "{}" (Obj [])); try reflexivity.
  right; right; right; reflexivity.
Defined.

(** X6.  Once the chapter page is fetched and parsed, what the images
    operation does depends on the shape of the script's value only.  An
    array gives one record per element, in order, whatever the elements are
    (they are not checked to be strings; the empty array gives the empty
    list).  A value with no [map] to call (undefined, null, a boolean, a
    number, a string) gives one exception and no result. *)
Theorem X6_images_by_shape_of_value (v : Plugin.Variant) (host : Host)
    (chapterUrl rawStr : string) (doc : list Node) (value : Value) :
  network host (Plugin.request v chapterUrl) = Normal rawStr ->
  htmlParser host (Plugin.pageParser v) (Str rawStr) = Normal doc ->
  scriptEngine host
    (Spec.lastLongest (Spec.scriptTexts (Plugin.query v doc)) ++ ";return imgHttps;")
  = Normal value ->
  settled (Plugin.getChapterImageList v host chapterUrl) = Normal tt /\
  (forall items,
     value = Arr items ->
     results (events (Plugin.getChapterImageList v host chapterUrl))
     = [ChapterImages
          (map (fun item => {| imageUrl := item; width := 1; height := 1 |}) items)] /\
     exceptions (events (Plugin.getChapterImageList v host chapterUrl)) = []) /\
  (value = Undefined \/ value = Null \/ (exists b, value = Boolean b) \/
   (exists n, value = Num n) \/ (exists s, value = Str s) ->
   results (events (Plugin.getChapterImageList v host chapterUrl)) = [] /\
   exists message,
     exceptions (events (Plugin.getChapterImageList v host chapterUrl)) = [Str message]).
Proof.
  unfold Spec.scriptTexts. intros Hfetch Hparse Heval. revert Hfetch Hparse Heval.
  destruct v; cbn [Plugin.query]; unfold_run; intros Hfetch Hparse Heval.
  all: rewrite Hfetch; cbv beta iota zeta.
  all: rewrite Hparse; cbv beta iota zeta.
  all: rewrite script_loop, Heval; cbv beta iota zeta.
  all: split; [|split].
  all: try (intros items ->; cbn; split; reflexivity).
  all: try (intros [->|[->|[[b ->]|[[n ->]|[s ->]]]]]; cbn;
            (split; [reflexivity|eexists; reflexivity])).
  all: destruct value; reflexivity.
Qed.

Lemma X6_witness :
  settled (Plugin.getChapterImageList Plugin.cheerio Cases.host "https://mto.to/chapter/6")
  = Normal tt /\
  results
    (events (Plugin.getChapterImageList Plugin.cheerio Cases.host "https://mto.to/chapter/6"))
  = [ChapterImages
       [{| imageUrl := Num (Int 1); width := 1; height := 1 |};
        {| imageUrl := Null; width := 1; height := 1 |}]] /\
  exceptions
    (events (Plugin.getChapterImageList Plugin.cheerio Cases.host "https://mto.to/chapter/6"))
  = [].
Proof.
  destruct (X6_images_by_shape_of_value Plugin.cheerio Cases.host
              "https://mto.to/chapter/6" "<div id='viewer'>values</div>"
              (Demo.scripts ["const imgHttps = [1, null];"%string])
              (Arr [Num (Int 1); Null]) eq_refl eq_refl eq_refl)
    as (Hsettled & Harray & _).
  split; [exact Hsettled|].
  exact (Harray [Num (Int 1); Null] eq_refl).
Defined.

(** ** A keyword that cannot be encoded *)

(** X7.  When [encodeURIComponent] throws on the keyword, the search makes
    no request and parses nothing; the failure's message goes to
    [endWithException] and no result is emitted. *)
Theorem X7_unencodable_keyword (v : Plugin.Variant) (host : Host)
    (rawPage rawPageSize keyword : string) (rawFilterOptions : option string)
    (e message : Value) :
  keyword <> ""%string ->
  uriEncoder host keyword = Throw e ->
  get e "message" = Normal message ->
  withoutToasts
    (events (Plugin.getMangaList v host rawPage rawPageSize (Some keyword) rawFilterOptions))
  = [EndWithException message] /\
  settled (Plugin.getMangaList v host rawPage rawPageSize (Some keyword) rawFilterOptions)
  = Normal tt.
Proof.
  intros Hkw Hencode Hmessage.
  assert (Htruthy : truthy (Some keyword) = Some keyword).
  { unfold truthy. now destruct (String.eqb_spec keyword ""). }
  destruct v; unfold_run; rewrite Htruthy; cbv beta iota zeta.
  all: rewrite Hencode; cbv beta iota zeta.
  all: rewrite Hmessage; cbn; split; reflexivity.
Qed.

Lemma X7_witness :
  withoutToasts
    (events (Plugin.getMangaList Plugin.jQuery Cases.host "1" "20" (Some "one piece") None))
  = [EndWithException (Str "URI malformed")] /\
  settled (Plugin.getMangaList Plugin.jQuery Cases.host "1" "20" (Some "one piece") None)
  = Normal tt.
Proof.
  assert (Hkw : "one piece"%string <> ""%string) by discriminate.
  exact (X7_unencodable_keyword Plugin.jQuery Cases.host "1" "20" "one piece" None
           (ErrorObject "URIError" "URI malformed") (Str "URI malformed")
           Hkw eq_refl eq_refl).
Defined.

(** ** Arguments that make no difference *)

(** X8.  Without a keyword every page argument that reads as 1 or less (0,
    a negative number, or no number at all) is served the first page: toasts
    apart, two such arguments give the same calls and the same outcome. *)
Theorem X8_pages_up_to_1_are_the_first_page (v : Plugin.Variant) (host : Host)
    (rawPage rawPage' rawPageSize : string) (keyword rawFilterOptions : option string) :
  truthy keyword = None ->
  le (WithJQuery.parseIntSafe rawPage (Int 1)) (Int 1) = true ->
  le (WithJQuery.parseIntSafe rawPage' (Int 1)) (Int 1) = true ->
  withoutToasts
    (events (Plugin.getMangaList v host rawPage rawPageSize keyword rawFilterOptions))
  = withoutToasts
      (events (Plugin.getMangaList v host rawPage' rawPageSize keyword rawFilterOptions)) /\
  settled (Plugin.getMangaList v host rawPage rawPageSize keyword rawFilterOptions)
  = settled (Plugin.getMangaList v host rawPage' rawPageSize keyword rawFilterOptions).
Proof.
  intros Hkw Hle Hle'. revert Hle Hle'.
  destruct (parseIntSafe_number rawPage 1) as [z Hz].
  destruct (parseIntSafe_number rawPage' 1) as [z' Hz'].
  destruct v; unfold_run; change WithCheerio.parseIntSafe with WithJQuery.parseIntSafe.
  all: rewrite Hz, Hz', !gt_le_int, Hkw; intros Hle Hle'.
  all: cbv beta iota zeta; rewrite Hle, Hle'; cbn [negb].
  all: repeat step; cbn; split; reflexivity.
Qed.

Lemma X8_witness :
  withoutToasts (events (Plugin.getMangaList Plugin.jQuery Demo.host "-3" "20" None None))
  = withoutToasts (events (Plugin.getMangaList Plugin.jQuery Demo.host "0" "20" None None)) /\
  settled (Plugin.getMangaList Plugin.jQuery Demo.host "-3" "20" None None)
  = settled (Plugin.getMangaList Plugin.jQuery Demo.host "0" "20" None None).
Proof.
  exact (X8_pages_up_to_1_are_the_first_page Plugin.jQuery Demo.host "-3" "0" "20"
           None None eq_refl eq_refl eq_refl).
Defined.

(** X9.  An empty keyword is no keyword: toasts apart, the list operation
    makes the same calls and has the same outcome for the keyword [""] as
    for an absent one, and the page size and the filter options never change
    a run. *)
Theorem X9_empty_keyword_is_no_keyword (v : Plugin.Variant) (host : Host)
    (rawPage rawPageSize rawPageSize' : string)
    (rawFilterOptions rawFilterOptions' : option string) :
  withoutToasts
    (events (Plugin.getMangaList v host rawPage rawPageSize (Some ""%string)
               rawFilterOptions))
  = withoutToasts
      (events (Plugin.getMangaList v host rawPage rawPageSize' None rawFilterOptions')) /\
  settled (Plugin.getMangaList v host rawPage rawPageSize (Some ""%string) rawFilterOptions)
  = settled (Plugin.getMangaList v host rawPage rawPageSize' None rawFilterOptions').
Proof.
  destruct v; cbn [Plugin.getMangaList].
  - unfold WithJQuery.getMangaList. cbn [truthy String.eqb].
    repeat match goal with
      | |- context [bind (appToast ?m) (fun _ => ?rest)] =>
          destruct (toast_first m rest) as [-> ->]
      end.
    now split.
  - now split.
Qed.

(** ** Reading a page number *)

Module Numerals.
Import JS.

Fixpoint allWhiteSpace (s : string) : bool :=
  match s with
  | EmptyString => true
  | String c r => isWhiteSpace c && allWhiteSpace r
  end.

(** What may follow a decimal numeral: nothing, or a character that is not
    a decimal digit. *)
Definition endsNumeral (tail : string) : bool :=
  match tail with
  | EmptyString => true
  | String c _ =>
      match digitValue c with
      | Some d => (10 <=? d)%Z
      | None => true
      end
  end.

(** An [x] or [X], which after a lone [0] announces a hexadecimal numeral. *)
Definition hexMark (tail : string) : bool :=
  match tail with
  | String c _ => Ascii.eqb c "x" || Ascii.eqb c "X"
  | EmptyString => false
  end.

(** The number the decimal digits [d] denote after the digits read so far,
    which denote [a]. *)
Fixpoint digitsValue (d : Decimal.uint) (a : Z) : Z :=
  match d with
  | Decimal.Nil => a
  | Decimal.D0 l => digitsValue l (a * 10)
  | Decimal.D1 l => digitsValue l (a * 10 + 1)
  | Decimal.D2 l => digitsValue l (a * 10 + 2)
  | Decimal.D3 l => digitsValue l (a * 10 + 3)
  | Decimal.D4 l => digitsValue l (a * 10 + 4)
  | Decimal.D5 l => digitsValue l (a * 10 + 5)
  | Decimal.D6 l => digitsValue l (a * 10 + 6)
  | Decimal.D7 l => digitsValue l (a * 10 + 7)
  | Decimal.D8 l => digitsValue l (a * 10 + 8)
  | Decimal.D9 l => digitsValue l (a * 10 + 9)
  end.

(** What [parseInt] does once the white space and the sign are gone. *)
Definition readUnsigned (sign : Z) (s : string) : Number :=
  let '(radix, s) :=
    match s with
    | String "0" (String "x" r) => (16%Z, r)
    | String "0" (String "X" r) => (16%Z, r)
    | _ => (10%Z, s)
    end in
  match readDigits radix s None with
  | Some n => Int (sign * n)
  | None => NaN
  end.

(** The integers a JavaScript number holds exactly, from [-(2^53 - 1)] to
    [2^53 - 1]: on these [parseInt] and the number's decimal text agree with
    the integer itself. *)
Definition safeInteger (z : Z) : Prop :=
  (-9007199254740991 <= z <= 9007199254740991)%Z.

End Numerals.

Lemma trimStart_lead lead s :
  Numerals.allWhiteSpace lead = true -> trimStart (lead ++ s) = trimStart s.
Proof.
  induction lead as [|c r IH]; cbn [Numerals.allWhiteSpace append trimStart].
  - reflexivity.
  - intros [Hc Hr]%andb_prop. rewrite Hc. now apply IH.
Qed.

Lemma readDigits_digit c r acc d :
  digitValue c = Some d -> (d <? 10)%Z = true ->
  readDigits 10 (String c r) acc
  = readDigits 10 r (Some (match acc with Some a => a * 10 + d | None => d end)%Z).
Proof.
  intros Hc Hd. cbn [readDigits]. now rewrite Hc, Hd.
Qed.

Ltac read_digit :=
  match goal with
  | |- context [readDigits 10 (String ?c ?r) ?acc] =>
      let v := eval vm_compute in (digitValue c) in
      match v with
      | Some ?d => rewrite (readDigits_digit c r acc d eq_refl eq_refl)
      end
  end.

Lemma readDigits_tail tail a :
  Numerals.endsNumeral tail = true -> readDigits 10 tail (Some a) = Some a.
Proof.
  destruct tail as [|c r]; cbn [Numerals.endsNumeral readDigits]; [reflexivity|].
  destruct (digitValue c) as [d|]; [|reflexivity].
  intros Hd. destruct (Z.ltb_spec d 10); [|reflexivity].
  apply Z.leb_le in Hd. lia.
Qed.

Lemma readDigits_uint d tail a :
  Numerals.endsNumeral tail = true ->
  readDigits 10 (NilEmpty.string_of_uint d ++ tail) (Some a)
  = Some (Numerals.digitsValue d a).
Proof.
  intros Htail. revert a.
  induction d as [|d IH|d IH|d IH|d IH|d IH|d IH|d IH|d IH|d IH|d IH]; intros a;
    cbn [NilEmpty.string_of_uint append Numerals.digitsValue].
  1: now apply readDigits_tail.
  all: read_digit; rewrite IH; f_equal; f_equal; lia.
Qed.

Lemma of_uint_acc_value d acc :
  Zpos (Pos.of_uint_acc d acc) = Numerals.digitsValue d (Zpos acc).
Proof.
  revert acc.
  induction d as [|d IH|d IH|d IH|d IH|d IH|d IH|d IH|d IH|d IH|d IH]; intros acc;
    cbn [Pos.of_uint_acc Numerals.digitsValue]; [reflexivity|..].
  all: rewrite IH; f_equal; lia.
Qed.

Lemma parseInt_unfolded value :
  parseInt value
  = match trimStart value with
    | String "-" r => Numerals.readUnsigned (-1) r
    | String "+" r => Numerals.readUnsigned 1 r
    | s => Numerals.readUnsigned 1 s
    end.
Proof.
  unfold parseInt, Numerals.readUnsigned.
  destruct (trimStart value) as [|[[|] [|] [|] [|] [|] [|] [|] [|]] r]; reflexivity.
Qed.

(** The decimal digits of a positive number start with a digit that is not
    zero. *)
Lemma nzhead_head d :
  match Decimal.nzhead d with
  | Decimal.D0 _ => False
  | _ => True
  end.
Proof.
  induction d; cbn [Decimal.nzhead]; auto.
Qed.

Lemma to_uint_head p :
  match Pos.to_uint p with
  | Decimal.Nil => False
  | Decimal.D0 _ => False
  | _ => True
  end.
Proof.
  pose proof (DecimalPos.Unsigned.to_of (Pos.to_uint p)) as Hnorm.
  rewrite DecimalPos.Unsigned.of_to in Hnorm. cbn [N.to_uint] in Hnorm.
  pose proof (DecimalPos.Unsigned.to_uint_nonzero p) as Hnonzero.
  pose proof (nzhead_head (Pos.to_uint p)) as Hhead.
  unfold Decimal.unorm in Hnorm.
  destruct (Decimal.nzhead (Pos.to_uint p)) eqn:Hnz;
    first [contradiction | now rewrite Hnorm].
Qed.

(** A positive decimal numeral, followed by something that is no digit, reads
    as its number. *)
Lemma readUnsigned_positive sign p tail :
  Numerals.endsNumeral tail = true ->
  Numerals.readUnsigned sign (NilEmpty.string_of_uint (Pos.to_uint p) ++ tail)
  = Int (sign * Zpos p).
Proof.
  intros Htail.
  pose proof (to_uint_head p) as Hhead.
  pose proof (DecimalPos.Unsigned.of_to p) as Hof.
  unfold Numerals.readUnsigned.
  destruct (Pos.to_uint p) as [|d|d|d|d|d|d|d|d|d|d]; try contradiction;
    cbn [NilEmpty.string_of_uint append]; cbv beta iota zeta;
    read_digit; rewrite readDigits_uint by exact Htail;
    cbn [Pos.of_uint] in Hof; injection Hof as <-;
    rewrite of_uint_acc_value; reflexivity.
Qed.

Lemma readUnsigned_zero sign tail :
  Numerals.endsNumeral tail = true ->
  Numerals.hexMark tail = false ->
  Numerals.readUnsigned sign (String "0" tail) = Int (sign * 0).
Proof.
  intros Htail Hhex. unfold Numerals.readUnsigned.
  assert (Hradix :
            match String "0" tail with
            | String "0" (String "x" r) => (16%Z, r)
            | String "0" (String "X" r) => (16%Z, r)
            | _ => (10%Z, String "0" tail)
            end = (10%Z, String "0" tail)).
  { destruct tail as [|[[|] [|] [|] [|] [|] [|] [|] [|]] r];
      try reflexivity; discriminate Hhex. }
  rewrite Hradix. read_digit. now rewrite readDigits_tail.
Qed.

Lemma trimStart_numeral z tail :
  trimStart (toString (Int z) ++ tail) = (toString (Int z) ++ tail)%string.
Proof.
  destruct z as [|p|p]; cbn [toString Z.to_int]; unfold NilZero.string_of_int.
  - reflexivity.
  - pose proof (to_uint_head p) as Hhead. unfold NilZero.string_of_uint.
    destruct (Pos.to_uint p); try contradiction; reflexivity.
  - reflexivity.
Qed.

(** [parseInt] on white space, a decimal numeral and a tail that starts with
    no decimal digit. *)
Lemma parseInt_numeral (z : Z) (lead tail : string) :
  Numerals.allWhiteSpace lead = true ->
  Numerals.endsNumeral tail = true ->
  (z = 0%Z -> Numerals.hexMark tail = false) ->
  parseInt (lead ++ toString (Int z) ++ tail) = Int z.
Proof.
  intros Hlead Htail Hhex.
  rewrite parseInt_unfolded, trimStart_lead by exact Hlead.
  rewrite trimStart_numeral.
  destruct z as [|p|p]; cbn [toString Z.to_int]; unfold NilZero.string_of_int.
  - change (NilZero.string_of_uint Decimal.zero ++ tail)%string
      with (String "0" tail).
    cbv beta iota. now rewrite readUnsigned_zero by auto.
  - pose proof (to_uint_head p) as Hhead. unfold NilZero.string_of_uint.
    pose proof (readUnsigned_positive 1 p tail Htail) as Hread.
    destruct (Pos.to_uint p); try contradiction;
      cbn [NilEmpty.string_of_uint append] in Hread |- *; rewrite Hread;
      f_equal; lia.
  - pose proof (to_uint_head p) as Hhead. unfold NilZero.string_of_uint.
    pose proof (readUnsigned_positive (-1) p tail Htail) as Hread.
    destruct (Pos.to_uint p); try contradiction;
      cbn [NilEmpty.string_of_uint append] in Hread |- *; rewrite Hread;
      f_equal; lia.
Qed.

(** X10.  A page argument made of white space, the decimal numeral of a
    safe integer (one between [-(2^53 - 1)] and [2^53 - 1]) and anything that
    does not start with a decimal digit (as in [" 12"], ["12abc"], ["3.7"],
    ["-4px"]) reads as that integer: the fallback is not used and the rest of
    the argument is ignored.  The one exception is a zero followed by [x] or
    [X], which starts a hexadecimal numeral. *)
Theorem X10_numeral_is_read (z : Z) (lead tail : string) (fallback : Number) :
  Numerals.safeInteger z ->
  Numerals.allWhiteSpace lead = true ->
  Numerals.endsNumeral tail = true ->
  (z = 0%Z -> Numerals.hexMark tail = false) ->
  WithJQuery.parseIntSafe (lead ++ toString (Int z) ++ tail) fallback = Int z /\
  WithCheerio.parseIntSafe (lead ++ toString (Int z) ++ tail) fallback = Int z.
Proof.
  intros _ Hlead Htail Hhex.
  pose proof (parseInt_numeral z lead tail Hlead Htail Hhex) as Hparse.
  unfold WithJQuery.parseIntSafe, WithCheerio.parseIntSafe.
  rewrite Hparse. now split.
Qed.

Lemma X10_witness :
  WithJQuery.parseIntSafe (" " ++ toString (Int 12) ++ ".5abc") (Int 1) = Int 12 /\
  WithCheerio.parseIntSafe (" " ++ toString (Int 12) ++ ".5abc") (Int 1) = Int 12.
Proof.
  apply (X10_numeral_is_read 12 " " ".5abc" (Int 1));
    [unfold Numerals.safeInteger; lia|reflexivity|reflexivity|].
  intros H; discriminate H.
Defined.

(** X11.  The page of a request is the number read from the argument,
    written afresh: for an argument made of white space, the numeral of a
    safe integer [z] (one between [-(2^53 - 1)] and [2^53 - 1], where a
    number's text is its plain decimal numeral) and a tail that starts with
    no digit, the listing requests
    [https://mto.to/latest?page=z] when [z] is greater than 1 and
    [https://mto.to/latest] otherwise, and a search requests
    [...&page=z] whatever [z] is, zero and negative numbers included; the
    white space and the tail never reach the url. *)
Theorem X11_request_carries_the_number_read (v : Plugin.Variant) (host : Host)
    (z : Z) (lead tail rawPageSize : string) (keyword rawFilterOptions : option string) :
  Numerals.safeInteger z ->
  Numerals.allWhiteSpace lead = true ->
  Numerals.endsNumeral tail = true ->
  (z = 0%Z -> Numerals.hexMark tail = false) ->
  (truthy keyword = None ->
   requested
     (events (Plugin.getMangaList v host (lead ++ toString (Int z) ++ tail) rawPageSize
                keyword rawFilterOptions))
   = [if (1 <? z)%Z
      then ("https://mto.to/latest?page=" ++ toString (Int z))%string
      else "https://mto.to/latest"%string]) /\
  (forall word text,
     truthy keyword = Some text ->
     uriEncoder host text = Normal word ->
     requested
       (events (Plugin.getMangaList v host (lead ++ toString (Int z) ++ tail) rawPageSize
                  keyword rawFilterOptions))
     = [("https://mto.to/search?word=" ++ word ++ "&page=" ++ toString (Int z))%string]).
Proof.
  intros _ Hlead Htail Hhex.
  pose proof (parseInt_numeral z lead tail Hlead Htail Hhex) as Hparse.
  assert (Hpage : WithJQuery.parseIntSafe (lead ++ toString (Int z) ++ tail) (Int 1)
                  = Int z).
  { unfold WithJQuery.parseIntSafe. now rewrite Hparse. }
  split.
  - intros Hkw. destruct v; unfold_run.
    all: change WithCheerio.parseIntSafe with WithJQuery.parseIntSafe.
    all: rewrite Hpage, Hkw; cbv beta iota zeta; cbn [gt].
    all: destruct (1 <? z)%Z; repeat step; reflexivity.
  - intros word text Hkw Hword. destruct v; unfold_run.
    all: change WithCheerio.parseIntSafe with WithJQuery.parseIntSafe.
    all: rewrite Hpage, Hkw; cbv beta iota zeta.
    all: rewrite Hword; cbv beta iota zeta.
    all: repeat step; reflexivity.
Qed.

Lemma X11_witness :
  requested
    (events (Plugin.getMangaList Plugin.cheerio Demo.host (" " ++ toString (Int 2) ++ "nd")
               "20" None None))
  = ["https://mto.to/latest?page=2"%string].
Proof.
  assert (Hsafe : Numerals.safeInteger 2) by (unfold Numerals.safeInteger; lia).
  exact (proj1 (X11_request_carries_the_number_read Plugin.cheerio Demo.host 2 " " "nd"
                  "20" None None Hsafe eq_refl eq_refl (fun _ => eq_refl))
           eq_refl).
Defined.

(** ** What the results hold, whatever the document *)

Lemma absolute_shape href :
  Spec.absolute href = ""%string \/
  exists path, path <> ""%string /\ Spec.absolute href = ("https://mto.to" ++ path)%string.
Proof.
  unfold Spec.absolute, Spec.origin. destruct href as [h|]; [|now left].
  destruct (String.eqb_spec h ""); [now left|].
  right. now exists h.
Qed.

(** X12.  Whatever the page holds, the url of every list entry and of every
    chapter that an operation emits is either empty or [https://mto.to]
    followed by a path that is not empty: no result carries a relative
    url. *)
Theorem X12_urls_are_empty_or_on_site (v : Plugin.Variant) (host : Host) :
  (forall rawPage rawPageSize keyword rawFilterOptions r,
     In (EndWithResult (MangaList r))
        (events (Plugin.getMangaList v host rawPage rawPageSize keyword rawFilterOptions)) ->
     Forall
       (fun entry =>
          summaryUrl entry = ""%string \/
          exists path,
            path <> ""%string /\
            summaryUrl entry = ("https://mto.to" ++ path)%string)
       (IGetMangaListResult.list r)) /\
  (forall dataPageUrl r,
     In (EndWithResult (MangaData r)) (events (Plugin.getMangaData v host dataPageUrl)) ->
     Forall
       (fun chapter =>
          chapterUrl chapter = ""%string \/
          exists path,
            path <> ""%string /\
            chapterUrl chapter = ("https://mto.to" ++ path)%string)
       (chapterList r)).
Proof.
  split.
  - intros rawPage rawPageSize keyword rawFilterOptions r H.
    destruct (emitted_list _ _ _ _ _ _ _ H) as (doc & _ & Hr).
    injection Hr as ->. unfold Spec.listRule; cbn [IGetMangaListResult.list].
    apply Forall_map, Forall_forall. intros el _. apply absolute_shape.
  - intros dataPageUrl r H.
    destruct (emitted_detail _ _ _ _ H) as (doc & _ & Hr).
    injection Hr as ->. unfold Spec.detailRule; cbn [chapterList].
    apply Forall_map, Forall_forall. intros el _. apply absolute_shape.
Qed.

Lemma X12_witness :
  Forall
    (fun chapter =>
       chapterUrl chapter = ""%string \/
       exists path,
         path <> ""%string /\ chapterUrl chapter = ("https://mto.to" ++ path)%string)
    [{| chapterTitle := "Ch. 1"; chapterUrl := "https://mto.to/chapter/42" |}].
Proof.
  apply (proj2 (X12_urls_are_empty_or_on_site Plugin.cheerio Demo.host)
           "https://mto.to/series/1"%string
           {| title := "Example Series"; description := ""; coverUrl := "";
              chapterList :=
                [{| chapterTitle := "Ch. 1";
                    chapterUrl := "https://mto.to/chapter/42" |}] |}).
  event_is_there.
Defined.

(** ** What an operation never calls *)

(** X13.  Script text is evaluated by the images operation only, and a body
    is JSON-decoded by the listing only: the list and the detail operations
    never call [new Function], the detail and the images operations never
    call [JSON.parse] and never toast, and the cheerio variant never toasts
    at all. *)
Theorem X13_calls_that_are_never_made (v : Plugin.Variant) (host : Host) :
  (forall rawPage rawPageSize keyword rawFilterOptions,
     evaluated
       (events (Plugin.getMangaList v host rawPage rawPageSize keyword rawFilterOptions))
     = [] /\
     Trace.toasts
       (events (Plugin.getMangaList Plugin.cheerio host rawPage rawPageSize keyword
                  rawFilterOptions))
     = []) /\
  (forall dataPageUrl,
     evaluated (events (Plugin.getMangaData v host dataPageUrl)) = [] /\
     decoded (events (Plugin.getMangaData v host dataPageUrl)) = [] /\
     Trace.toasts (events (Plugin.getMangaData v host dataPageUrl)) = []) /\
  (forall chapterUrl,
     decoded (events (Plugin.getChapterImageList v host chapterUrl)) = [] /\
     Trace.toasts (events (Plugin.getChapterImageList v host chapterUrl)) = []).
Proof.
  split; [|split]; intros *.
  - split; [destruct v|]; run; reflexivity.
  - repeat split; destruct v; run; reflexivity.
  - repeat split; destruct v; run; reflexivity.
Qed.

(** ** The toasts of the browser variant *)

(** X14.  The browser variant's list operation toasts before anything else:
    first the page argument and the keyword as it received them, then,
    outside a search, the url it is about to request, which is the url of
    its one request. *)
Theorem X14_toasts_announce_the_request (host : Host)
    (rawPage rawPageSize : string) (keyword rawFilterOptions : option string) :
  exists rest,
    events (WithJQuery.getMangaList host rawPage rawPageSize keyword rawFilterOptions)
    = map AppToast
        (("Request page " ++ rawPage ++ ", keyword: " ++ template keyword)%string
         :: match truthy keyword with
            | Some _ => []
            | None => requested rest
            end)
      ++ rest /\
    Trace.toasts rest = [] /\
    (truthy keyword = None -> length (requested rest) = 1).
Proof.
  unfold_run. repeat step.
  all: match goal with
       | |- exists rest, ?log = _ /\ _ => exists (withoutToasts log)
       end.
  all: cbn [withoutToasts filter map app requested flat_map url Trace.toasts
            Datatypes.length].
  all: repeat split; intros; try discriminate; reflexivity.
Qed.

(** ** What reaches the parser *)

(** X15.  The detail and the images operations parse the body they fetched,
    as it is and once, through the variant's page parser ([$.parseHTML] or
    [load]); when the fetch fails they parse nothing. *)
Theorem X15_fetched_body_is_parsed_as_is (v : Plugin.Variant) (host : Host)
    (address : string) :
  Trace.parses (events (Plugin.getMangaData v host address))
  = match network host (Plugin.request v address) with
    | Normal rawStr => [(Plugin.pageParser v, Str rawStr)]
    | Throw _ => []
    end /\
  Trace.parses (events (Plugin.getChapterImageList v host address))
  = match network host (Plugin.request v address) with
    | Normal rawStr => [(Plugin.pageParser v, Str rawStr)]
    | Throw _ => []
    end.
Proof.
  split; destruct v; run; reflexivity.
Qed.
